(** * Music-Recommender: the CSV-to-Parquet ingestion step

    A shallow embedding of [src/Ingestion.py] and [main.py].  The module
    constants, [create_spark_session], [csv_to_parquet], [convert_all],
    [load_parquet] and [run_pipeline] are embedded as programs of a small
    state-and-exception monad over a world made of the process environment,
    the process-wide Spark session, a file store and the sequence of calls
    issued to the runtime.  What PySpark does when a plan is evaluated is
    not code of this repository: it is an [Engine] the programs are
    parametric in, with two instances following PySpark's documentation:
    [Spark.engine], the CSV reader, and [SparkFiles.engine], which also
    reads columnar datasets back. *)

From Stdlib Require Import String Ascii List ZArith Lia.
From stdpp Require Import base option gmap strings list fin_maps pretty.
Import ListNotations.

Open Scope string_scope.
Open Scope list_scope.

(** ** Text helpers *)

Module Text.

(** The empty text, the double-quote character and the line feed. *)
Definition empty : string := EmptyString.
Definition dquote : string := String (ascii_of_nat 34) EmptyString.
Definition newline : string := String (ascii_of_nat 10) EmptyString.

(** Python's [s * n] on strings. *)
Fixpoint repeat_text (s : string) (n : nat) : string :=
  match n with
  | O => empty
  | S k => s ++ repeat_text s k
  end.

Definition is_space (c : ascii) : bool :=
  match nat_of_ascii c with
  | 9 | 10 | 11 | 12 | 13 | 32 => true
  | _ => false
  end.

Definition rev_text (acc : list ascii) : string :=
  string_of_list_ascii (rev acc).

(** Cut a text at every occurrence of [sep]; always one piece more than
    there are separators. *)
Fixpoint split_go (sep : ascii) (s : string) (acc : list ascii) : list string :=
  match s with
  | EmptyString => [rev_text acc]
  | String c rest =>
      if Ascii.eqb c sep then rev_text acc :: split_go sep rest []
      else split_go sep rest (c :: acc)
  end.

Definition split_on (sep : ascii) (s : string) : list string :=
  split_go sep s [].

(** The maximal runs of non-blank characters (Python's [s.split()]). *)
Fixpoint words_go (s : string) (acc : list ascii) : list string :=
  match s with
  | EmptyString =>
      match acc with [] => [] | _ => [rev_text acc] end
  | String c rest =>
      if is_space c then
        match acc with
        | [] => words_go rest []
        | _ => rev_text acc :: words_go rest []
        end
      else words_go rest (c :: acc)
  end.

Definition words (s : string) : list string := words_go s [].

Fixpoint starts_with (p s : string) : bool :=
  match p, s with
  | EmptyString, _ => true
  | String a p', String b s' => Ascii.eqb a b && starts_with p' s'
  | String _ _, EmptyString => false
  end.

(** Digits in groups of three from the right, as [format(n, ',')] does. *)
Fixpoint group3 (rev_digits : list ascii) (k : nat) (acc : list ascii) : list ascii :=
  match rev_digits with
  | [] => acc
  | d :: ds =>
      match k, ds with
      | 2, _ :: _ => group3 ds 0 (","%char :: d :: acc)
      | _, _ => group3 ds (S k) (d :: acc)
      end
  end.

Definition thousands (n : nat) : string :=
  string_of_list_ascii
    (group3 (rev (list_ascii_of_string (pretty (N.of_nat n)))) 0 []).

End Text.

(** ** Schemas

    A schema is handed to the reader as DDL text: comma-separated
    [name TYPE] pairs. *)

Inductive DataType := IntegerType | StringType | DoubleType.

Definition parse_type (t : string) : option DataType :=
  if String.eqb t "INT" then Some IntegerType
  else if String.eqb t "INTEGER" then Some IntegerType
  else if String.eqb t "STRING" then Some StringType
  else if String.eqb t "DOUBLE" then Some DoubleType
  else None.

Definition parse_field (piece : string) : option (string * DataType) :=
  match Text.words piece with
  | [name; ty] =>
      match parse_type ty with
      | Some t => Some (name, t)
      | None => None
      end
  | _ => None
  end.

Fixpoint parse_fields (pieces : list string) : option (list (string * DataType)) :=
  match pieces with
  | [] => Some []
  | p :: ps =>
      match parse_field p, parse_fields ps with
      | Some f, Some fs => Some (f :: fs)
      | _, _ => None
      end
  end.

Definition parse_ddl (ddl : string) : option (list (string * DataType)) :=
  parse_fields (Text.split_on ","%char ddl).

(** Number of columns a DDL text declares; [None] when it does not parse. *)
Definition ddl_columns (ddl : string) : option nat :=
  match parse_ddl ddl with
  | Some fs => Some (length fs)
  | None => None
  end.

Definition TRACKS_SCHEMA : string := "
    track_id INT,
    album_id INT,
    album_title STRING,
    album_url STRING,
    artist_id INT,
    artist_name STRING,
    artist_url STRING,
    artist_website STRING,
    license_image_file STRING,
    license_image_file_large STRING,
    license_parent_id INT,
    license_title STRING,
    license_url STRING,
    tags STRING,
    track_bit_rate INT,
    track_comments INT,
    track_composer STRING,
    track_copyright_c STRING,
    track_copyright_p STRING,
    track_date_created STRING,
    track_date_recorded STRING,
    track_disc_number INT,
    track_duration STRING,
    track_explicit STRING,
    track_explicit_notes STRING,
    track_favorites INT,
    track_file STRING,
    track_genres STRING,
    track_image_file STRING,
    track_information STRING,
    track_instrumental INT,
    track_interest INT,
    track_language_code STRING,
    track_listens INT,
    track_lyricist STRING,
    track_number INT,
    track_publisher STRING,
    track_title STRING,
    track_url STRING
".

Definition GENRES_SCHEMA : string := "
    genre_id INT,
    genre_color STRING,
    genre_handle STRING,
    genre_parent_id INT,
    genre_title STRING
".

Definition ARTISTS_SCHEMA : string := "
    artist_id INT,
    artist_active_year_begin INT,
    artist_active_year_end INT,
    artist_associated_labels STRING,
    artist_bio STRING,
    artist_comments INT,
    artist_contact STRING,
    artist_date_created STRING,
    artist_donation_url STRING,
    artist_favorites INT,
    artist_flattr_name STRING,
    artist_handle STRING,
    artist_image_file STRING,
    artist_images STRING,
    artist_latitude DOUBLE,
    artist_location STRING,
    artist_longitude DOUBLE,
    artist_members STRING,
    artist_name STRING,
    artist_paypal_name STRING,
    artist_related_projects STRING,
    artist_url STRING,
    artist_website STRING,
    artist_wikipedia_page STRING,
    tags STRING
".

(** ** Values, errors and outcomes *)

(** The values stored in the dictionaries the converter returns. *)
Inductive PyVal :=
| VInt (n : Z)
| VStr (s : string).

Inductive Error :=
| ValueError (msg : string)
| KeyError (key : string)
| FileExistsError (path : string)
| NotADirectoryError (path : string)
| RuntimeFailure (what : string).

Inductive outcome (A : Type) :=
| Ok (a : A)
| Raise (e : Error).
Arguments Ok {A} a.
Arguments Raise {A} e.

(** ** Objects of the Spark runtime *)

(** A session: its configuration keys and the log level of its context
    ([None] until [setLogLevel] is called). *)
Record Session := {
  conf : gmap string string;
  log_level : option string;
}.

(** [spark.read] and what [.format], [.option] and [.schema] set on it. *)
Record Reader := {
  r_session : Session;
  r_format : option string;
  r_options : gmap string string;
  r_schema : option string;
}.

(** A data frame is a plan, evaluated by every action on it. *)
Record DataFrame := {
  df_reader : Reader;
  df_path : string;
}.

(** [df.write] and what [.mode] and [.option] set on it. *)
Record Writer := {
  w_df : DataFrame;
  w_mode : option string;
  w_options : gmap string string;
}.

(** A cell of a typed row; a DOUBLE keeps its decimal text. *)
Inductive Cell :=
| CInt (n : Z)
| CText (s : string)
| CDouble (text : string).

Definition Row : Type := list (option Cell).

(** What a path of the file store holds: a delimited-text object, given as
    its records (the fields of each, first the header row), or a columnar
    dataset, given as its part files, one per write that added to it, each
    with the codec it was written with. *)
Inductive FileObj :=
| CsvFile (records : list (list string))
| ParquetData (parts : list (string * list Row)).

(** The calls the program issues, in order. *)
Inductive Event :=
| EEnvironPop (key : string)
| ELoadDotenv
| EGetenv (key : string)
| EPrint (line : string)
| EGetOrCreate (options : gmap string string)
| ESetLogLevel (level : string)
| EMakedirs (path : string) (exist_ok : bool)
| ELoad (r : Reader) (path : string)
| ECount (df : DataFrame)
| EWriteParquet (w : Writer) (path : string).

(** ** The world and the monad of programs *)

Record World := {
  environ : gmap string string;
  dotenv : gmap string string;
  session : option Session;
  files : gmap string FileObj;
  dirs : gset string;
  calls : list Event;
}.

Definition set_environ (e : gmap string string) (w : World) : World :=
  {| environ := e; dotenv := dotenv w; session := session w;
     files := files w; dirs := dirs w; calls := calls w |}.

Definition set_session (s : option Session) (w : World) : World :=
  {| environ := environ w; dotenv := dotenv w; session := s;
     files := files w; dirs := dirs w; calls := calls w |}.

Definition set_files (f : gmap string FileObj) (w : World) : World :=
  {| environ := environ w; dotenv := dotenv w; session := session w;
     files := f; dirs := dirs w; calls := calls w |}.

Definition set_dirs (d : gset string) (w : World) : World :=
  {| environ := environ w; dotenv := dotenv w; session := session w;
     files := files w; dirs := d; calls := calls w |}.

Definition set_calls (c : list Event) (w : World) : World :=
  {| environ := environ w; dotenv := dotenv w; session := session w;
     files := files w; dirs := dirs w; calls := c |}.

(** A program returns or raises, and leaves a world either way: an
    exception undoes nothing. *)
Definition M (A : Type) : Type := World -> outcome A * World.

Definition ret {A} (a : A) : M A := fun w => (Ok a, w).

Definition raise {A} (e : Error) : M A := fun w => (Raise e, w).

Definition bind {A B} (m : M A) (k : A -> M B) : M B :=
  fun w =>
    match m w with
    | (Ok a, w') => k a w'
    | (Raise e, w') => (Raise e, w')
    end.

Definition get_world : M World := fun w => (Ok w, w).

Definition update (f : World -> World) : M unit := fun w => (Ok tt, f w).

Definition emit (e : Event) : M unit :=
  update (fun w => set_calls (calls w ++ [e]) w).

Definition lift {A} (o : outcome A) : M A := fun w => (o, w).

Declare Scope prog_scope.
Delimit Scope prog_scope with prog.
Notation "'do' x <- m ;; k" := (bind m (fun x => k))
  (at level 10, x name, m at level 99, k at level 200,
   format "'[v' 'do'  x  <-  m  ;;  '/' k ']'") : prog_scope.
(** Method chaining: [x |> f |> g] is [g (f x)], read as [x.f().g()]. *)
Notation "x |> f" := (f x) (at level 45, left associativity, only parsing) : prog_scope.
Open Scope prog_scope.

(** ** The operating system and the environment *)

(** [os.getenv(key)] *)
Definition getenv (key : string) : M (option string) :=
  do _ <- emit (EGetenv key) ;;
  do w <- get_world ;;
  ret (environ w !! key).

(** [os.getenv(key, default)] *)
Definition getenv_default (key default : string) : M string :=
  do v <- getenv key ;;
  ret (match v with Some s => s | None => default end).

(** [os.environ.pop(key, None)] *)
Definition environ_pop (key : string) : M unit :=
  do _ <- emit (EEnvironPop key) ;;
  update (fun w => set_environ (delete key (environ w)) w).

(** [load_dotenv()]: the variables of the .env file enter the environment;
    a variable that is already set keeps its value. *)
Definition load_dotenv : M unit :=
  do _ <- emit ELoadDotenv ;;
  update (fun w => set_environ (environ w ∪ dotenv w) w).

Definition print (line : string) : M unit := emit (EPrint line).

(** Truth value of what [os.getenv] returns: [None] and the empty text are
    false. *)
Definition truthy (v : option string) : bool :=
  match v with
  | None => false
  | Some EmptyString => false
  | Some (String _ _) => true
  end.

(** The proper prefixes of a path that end before a slash:
    [ancestors "a/b/c" = ["a"; "a/b"]]. *)
Fixpoint ancestors_go (s : string) (acc : list ascii) : list string :=
  match s with
  | EmptyString => []
  | String c rest =>
      if Ascii.eqb c "/"%char then
        match acc with
        | [] => ancestors_go rest (c :: acc)
        | _ => Text.rev_text acc :: ancestors_go rest (c :: acc)
        end
      else ancestors_go rest (c :: acc)
  end.

Definition ancestors (path : string) : list string := ancestors_go path [].

Fixpoint first_file (fs : gmap string FileObj) (paths : list string) : option string :=
  match paths with
  | [] => None
  | p :: ps =>
      match fs !! p with
      | Some _ => Some p
      | None => first_file fs ps
      end
  end.

(** [os.makedirs(path, exist_ok=...)] *)
Definition makedirs (path : string) (exist_ok : bool) : M unit :=
  do _ <- emit (EMakedirs path exist_ok) ;;
  do w <- get_world ;;
  match first_file (files w) (ancestors path) with
  | Some p => raise (NotADirectoryError p)
  | None =>
      match files w !! path with
      | Some _ => raise (FileExistsError path)
      | None =>
          if decide (path ∈ dirs w) then
            if exist_ok then ret tt else raise (FileExistsError path)
          else
            update (fun w => set_dirs (list_to_set (path :: ancestors path) ∪ dirs w) w)
      end
  end.

(** [d[key]] on a dictionary *)
Definition subscript {V} (d : gmap string V) (key : string) : M V :=
  match d !! key with
  | Some v => ret v
  | None => raise (KeyError key)
  end.

(** ** The Spark runtime *)

(** What evaluating a read plan does is the runtime's business.  A plan
    reads the object at its own path and nothing else. *)
Record Engine := {
  (** the parse of a DDL text, run by [schema] *)
  ddl_check : string -> outcome unit;
  (** the checks [load] runs before it hands out a data frame *)
  load_check : Reader -> string -> option FileObj -> outcome unit;
  (** the rows an action on the data frame materializes *)
  scan : Reader -> string -> option FileObj -> outcome (list Row);
}.

Inductive SaveMode := Append | Overwrite | ErrorIfExists | Ignore.

Definition save_mode (m : option string) : option SaveMode :=
  match m with
  | None => Some ErrorIfExists
  | Some s =>
      if String.eqb s "overwrite" then Some Overwrite
      else if String.eqb s "append" then Some Append
      else if String.eqb s "ignore" then Some Ignore
      else if String.eqb s "error" then Some ErrorIfExists
      else if String.eqb s "errorifexists" then Some ErrorIfExists
      else if String.eqb s "default" then Some ErrorIfExists
      else None
  end.

(** [SparkSession.builder] and its setters; the builder is the map of the
    options set so far. *)
Definition builder : gmap string string := ∅.

Definition config (key value : string) (b : gmap string string) : gmap string string :=
  <[key := value]> b.

Definition appName (name : string) (b : gmap string string) : gmap string string :=
  config "spark.app.name" name b.

Definition master (url : string) (b : gmap string string) : gmap string string :=
  config "spark.master" url b.

(** [.getOrCreate()]: the process has one session; when it exists it is
    handed out again, with the builder's options applied to it. *)
Definition getOrCreate (b : gmap string string) : M Session :=
  do _ <- emit (EGetOrCreate b) ;;
  do w <- get_world ;;
  let s := match session w with
           | Some s0 => {| conf := b ∪ conf s0; log_level := log_level s0 |}
           | None => {| conf := b; log_level := None |}
           end in
  do _ <- update (set_session (Some s)) ;;
  ret s.

(** [spark.sparkContext.setLogLevel(level)]; the handle returned carries
    the level the shared session now has. *)
Definition setLogLevel (level : string) (s : Session) : M Session :=
  do _ <- emit (ESetLogLevel level) ;;
  let s' := {| conf := conf s; log_level := Some level |} in
  do _ <- update (set_session (Some s')) ;;
  ret s'.

(** [spark.read] *)
Definition read (s : Session) : Reader :=
  {| r_session := s; r_format := None; r_options := ∅; r_schema := None |}.

Definition format (fmt : string) (r : Reader) : Reader :=
  {| r_session := r_session r; r_format := Some fmt;
     r_options := r_options r; r_schema := r_schema r |}.

(** [.option(key, value)] on a reader *)
Definition r_option (key value : string) (r : Reader) : Reader :=
  {| r_session := r_session r; r_format := r_format r;
     r_options := <[key := value]> (r_options r); r_schema := r_schema r |}.

(** [df.write] *)
Definition write (df : DataFrame) : Writer :=
  {| w_df := df; w_mode := None; w_options := ∅ |}.

Definition mode (m : string) (wr : Writer) : Writer :=
  {| w_df := w_df wr; w_mode := Some m; w_options := w_options wr |}.

(** [.option(key, value)] on a writer *)
Definition w_option (key value : string) (wr : Writer) : Writer :=
  {| w_df := w_df wr; w_mode := w_mode wr;
     w_options := <[key := value]> (w_options wr) |}.

(** The codec of a write: the writer's option, else the session's default,
    else snappy. *)
Definition write_codec (wr : Writer) : string :=
  match w_options wr !! "compression" with
  | Some c => c
  | None =>
      match conf (r_session (df_reader (w_df wr))) !! "spark.sql.parquet.compression.codec" with
      | Some c => c
      | None => "snappy"
      end
  end.

Section Runtime.

Variable E : Engine.

(** [.schema(ddl)]: the text is parsed at once. *)
Definition schema (ddl : string) (r : Reader) : M Reader :=
  do _ <- lift (ddl_check E ddl) ;;
  ret {| r_session := r_session r; r_format := r_format r;
         r_options := r_options r; r_schema := Some ddl |}.

(** [reader.load(path)] *)
Definition load (path : string) (r : Reader) : M DataFrame :=
  do _ <- emit (ELoad r path) ;;
  do w <- get_world ;;
  do _ <- lift (load_check E r path (files w !! path)) ;;
  ret {| df_reader := r; df_path := path |}.

(** Evaluation of a plan against the file store as it is now. *)
Definition materialize (df : DataFrame) : M (list Row) :=
  do w <- get_world ;;
  lift (scan E (df_reader df) (df_path df) (files w !! df_path df)).

(** [df.count()] *)
Definition count (df : DataFrame) : M nat :=
  do _ <- emit (ECount df) ;;
  do rows <- materialize df ;;
  ret (length rows).

Definition put_file (path : string) (o : FileObj) : M unit :=
  update (fun w => set_files (<[path := o]> (files w)) w).

Definition remove_file (path : string) : M unit :=
  update (fun w => set_files (delete path (files w)) w).

(** [writer.parquet(path)].  Overwriting clears the destination, then
    runs the plan and writes one part; a plan that reads the destination
    itself is refused before anything is cleared.  Appending adds a part
    to what is there. *)
Definition parquet (path : string) (wr : Writer) : M unit :=
  do _ <- emit (EWriteParquet wr path) ;;
  do w <- get_world ;;
  let part rows := (write_codec wr, rows) in
  match save_mode (w_mode wr) with
  | None => raise (ValueError "Unknown save mode")
  | Some Overwrite =>
      if String.eqb path (df_path (w_df wr)) then
        raise (RuntimeFailure "Cannot overwrite a path that is also being read from")
      else
        do _ <- remove_file path ;;
        do rows <- materialize (w_df wr) ;;
        put_file path (ParquetData [part rows])
  | Some Append =>
      do rows <- materialize (w_df wr) ;;
      match files w !! path with
      | None => put_file path (ParquetData [part rows])
      | Some (ParquetData parts) => put_file path (ParquetData (parts ++ [part rows]))
      | Some (CsvFile _) => raise (RuntimeFailure "Destination is not a columnar dataset")
      end
  | Some ErrorIfExists =>
      match files w !! path with
      | Some _ => raise (RuntimeFailure "Path already exists")
      | None =>
          do rows <- materialize (w_df wr) ;;
          put_file path (ParquetData [part rows])
      end
  | Some Ignore =>
      match files w !! path with
      | Some _ => ret tt
      | None =>
          do rows <- materialize (w_df wr) ;;
          put_file path (ParquetData [part rows])
      end
  end.

End Runtime.

(** ** [src/Ingestion.py] *)

(** The module's globals that depend on the environment. *)
Record Globals := {
  S3_BUCKET : string;
  AWS_REGION : string;
  S3_INPUT : gmap string string;
  LOCAL_OUTPUT : gmap string string;
}.

(** The statements the module runs when it is imported, up to the schema
    constants (which are [TRACKS_SCHEMA], [GENRES_SCHEMA] and
    [ARTISTS_SCHEMA] above). *)
Definition import_module : M Globals :=
  do _ <- environ_pop "CONTAINER_ID" ;;
  do _ <- load_dotenv ;;
  do bucket <- getenv_default "S3_BUCKET" "musicrec-data" ;;
  do region <- getenv_default "AWS_REGION" "ap-south-1" ;;
  ret {| S3_BUCKET := bucket;
         AWS_REGION := region;
         S3_INPUT :=
           {[ "tracks" := "s3a://" +:+ bucket +:+ "/raw_tracks.csv";
              "genres" := "s3a://" +:+ bucket +:+ "/raw_genres.csv";
              "artists" := "s3a://" +:+ bucket +:+ "/raw_artists.csv" ]};
         LOCAL_OUTPUT :=
           {[ "tracks" := "data/processed/tracks.parquet";
              "genres" := "data/processed/genres.parquet";
              "artists" := "data/processed/artists.parquet" ]} |}.

(** The text of an environment value that passed the truth test. *)
Definition env_text (v : option string) : string := default Text.empty v.

Definition create_spark_session (g : Globals) : M Session :=
  do aws_access_key <- getenv "AWS_ACCESS_KEY_ID" ;;
  do aws_secret_key <- getenv "AWS_SECRET_ACCESS_KEY" ;;
  if negb (truthy aws_access_key) || negb (truthy aws_secret_key) then
    raise (ValueError
      ("AWS credentials not found. Set AWS_ACCESS_KEY_ID and " +:+
       "AWS_SECRET_ACCESS_KEY in environment or .env file."))
  else
    do _ <- print ("Initializing Spark with S3 access to region: " +:+ AWS_REGION g) ;;
    do spark <- getOrCreate
      (builder
       |> appName "FMA_CSV_to_Parquet"
       |> master "local[*]"
       |> config "spark.jars.packages"
            ("org.apache.hadoop:hadoop-aws:3.3.4," +:+
             "com.amazonaws:aws-java-sdk-bundle:1.12.262")
       |> config "spark.hadoop.fs.s3a.impl"
            "org.apache.hadoop.fs.s3a.S3AFileSystem"
       |> config "spark.hadoop.fs.s3a.access.key" (env_text aws_access_key)
       |> config "spark.hadoop.fs.s3a.secret.key" (env_text aws_secret_key)
       |> config "spark.hadoop.fs.s3a.endpoint"
            ("s3." +:+ AWS_REGION g +:+ ".amazonaws.com")
       |> config "spark.hadoop.fs.s3a.path.style.access" "true"
       |> config "spark.hadoop.fs.s3a.connection.ssl.enabled" "true"
       |> config "spark.driver.memory" "4g"
       |> config "spark.sql.adaptive.enabled" "true"
       |> config "spark.sql.parquet.compression.codec" "snappy") ;;
    do spark <- setLogLevel "WARN" spark ;;
    ret spark.

Section Ingestion.

Variable E : Engine.

Definition csv_to_parquet (spark : Session)
    (input_path output_path schema_ddl : string) (multiline : bool)
    : M (gmap string PyVal) :=
  do _ <- print (Text.newline +:+ Text.repeat_text "=" 60) ;;
  do _ <- print ("Source (S3):    " +:+ input_path) ;;
  do _ <- print ("Output (Local): " +:+ output_path) ;;
  do _ <- print (Text.repeat_text "=" 60) ;;
  do reader <- (read spark
                |> format "csv"
                |> r_option "header" "true"
                |> schema E schema_ddl) ;;
  let reader :=
    if multiline then
      reader
      |> r_option "multiLine" "true"
      |> r_option "quote" Text.dquote
      |> r_option "escape" Text.dquote
      |> r_option "mode" "PERMISSIVE"
    else reader in
  do df <- (reader |> load E input_path) ;;
  do count <- count E df ;;
  do _ <- print ("Records read: " +:+ Text.thousands count) ;;
  do _ <- (write df
           |> mode "overwrite"
           |> w_option "compression" "snappy"
           |> parquet E output_path) ;;
  do _ <- print ("✓ Parquet written to " +:+ output_path) ;;
  ret ({[ "count" := VInt (Z.of_nat count);
          "output_path" := VStr output_path ]} : gmap string PyVal).

Definition convert_all (g : Globals) (spark : Session)
    : M (gmap string (gmap string PyVal)) :=
  do _ <- makedirs "data/processed" true ;;
  let results : gmap string (gmap string PyVal) := ∅ in
  do input_path <- subscript (S3_INPUT g) "tracks" ;;
  do output_path <- subscript (LOCAL_OUTPUT g) "tracks" ;;
  do r <- csv_to_parquet spark input_path output_path TRACKS_SCHEMA true ;;
  let results := <["tracks" := r]> results in
  do input_path <- subscript (S3_INPUT g) "genres" ;;
  do output_path <- subscript (LOCAL_OUTPUT g) "genres" ;;
  do r <- csv_to_parquet spark input_path output_path GENRES_SCHEMA false ;;
  let results := <["genres" := r]> results in
  do input_path <- subscript (S3_INPUT g) "artists" ;;
  do output_path <- subscript (LOCAL_OUTPUT g) "artists" ;;
  do r <- csv_to_parquet spark input_path output_path ARTISTS_SCHEMA true ;;
  let results := <["artists" := r]> results in
  ret results.

(** [main.py] *)
Definition run_pipeline (g : Globals) : M unit :=
  do _ <- print (Text.repeat_text "=" 60) ;;
  do _ <- print "Music Data ETL Pipeline" ;;
  do _ <- print (Text.repeat_text "=" 60) ;;
  do spark <- create_spark_session g ;;
  do raw_parquet <- convert_all g spark ;;
  ret tt.

End Ingestion.

(** ** [load_parquet] *)

Section Loading.
Variable E : Engine.

(** [reader.parquet(path)]: the load of [path] in format parquet. *)
Definition r_parquet (path : string) (r : Reader) : M DataFrame :=
  r |> format "parquet" |> load E path.

Definition load_parquet (g : Globals) (spark : Session) : M (gmap string DataFrame) :=
  do path <- subscript (LOCAL_OUTPUT g) "tracks" ;;
  do tracks <- (read spark |> r_parquet path) ;;
  do path <- subscript (LOCAL_OUTPUT g) "genres" ;;
  do genres <- (read spark |> r_parquet path) ;;
  do path <- subscript (LOCAL_OUTPUT g) "artists" ;;
  do artists <- (read spark |> r_parquet path) ;;
  do n <- count E tracks ;;
  do _ <- print ("Tracks:  " +:+ Text.thousands n +:+ " records") ;;
  do n <- count E genres ;;
  do _ <- print ("Genres:  " +:+ Text.thousands n +:+ " records") ;;
  do n <- count E artists ;;
  do _ <- print ("Artists: " +:+ Text.thousands n +:+ " records") ;;
  ret ({[ "tracks" := tracks; "genres" := genres; "artists" := artists ]}
       : gmap string DataFrame).

End Loading.

(** ** PySpark's CSV source

    The instance of [Engine] used to run the programs: the documented
    behaviour of the CSV data source under a user-given schema.  The source
    object is taken after tokenization, so the [multiLine], [quote] and
    [escape] options, which steer the tokenizer, are carried and not
    interpreted. *)

Module Spark.

Inductive ParseMode := Permissive | DropMalformed | FailFast.

(** The [mode] option; PERMISSIVE when it is absent or not recognised. *)
Definition parse_mode (opts : gmap string string) : ParseMode :=
  match opts !! "mode" with
  | Some m =>
      if String.eqb m "FAILFAST" then FailFast
      else if String.eqb m "DROPMALFORMED" then DropMalformed
      else Permissive
  | None => Permissive
  end.

Definition digit (c : ascii) : option Z :=
  let n := nat_of_ascii c in
  if (48 <=? n)%nat && (n <=? 57)%nat then Some (Z.of_nat (n - 48)) else None.

Fixpoint digits (s : string) (acc : Z) : option Z :=
  match s with
  | EmptyString => Some acc
  | String c rest =>
      match digit c with
      | Some d => digits rest (10 * acc + d)%Z
      | None => None
      end
  end.

Definition signed (s : string) : option Z :=
  match s with
  | EmptyString => None
  | String c rest =>
      if Ascii.eqb c "-"%char then
        match rest with
        | EmptyString => None
        | _ => Z.opp <$> digits rest 0
        end
      else if Ascii.eqb c "+"%char then
        match rest with
        | EmptyString => None
        | _ => digits rest 0
        end
      else digits s 0
  end.

(** A 32-bit integer in decimal. *)
Definition parse_int (s : string) : option Z :=
  match signed s with
  | Some z => if (-2147483648 <=? z)%Z && (z <=? 2147483647)%Z then Some z else None
  | None => None
  end.

(** Plain decimal notation: a sign, digits, at most one point. *)
Definition looks_decimal (s : string) : bool :=
  match Text.split_on "."%char s with
  | [whole] => bool_decide (is_Some (signed whole))
  | [whole; frac] =>
      match whole, frac with
      | EmptyString, EmptyString => false
      | EmptyString, _ => bool_decide (is_Some (digits frac 0))
      | _, _ => bool_decide (is_Some (signed whole)) && bool_decide (is_Some (digits frac 0))
      end
  | _ => false
  end.

(** One field under the declared type: [None] when it cannot be read as
    that type; the empty field is the null cell. *)
Definition convert_cell (ty : DataType) (field : string) : option (option Cell) :=
  match field with
  | EmptyString => Some None
  | _ =>
      match ty with
      | IntegerType => (fun z => Some (CInt z)) <$> parse_int field
      | StringType => Some (Some (CText field))
      | DoubleType => if looks_decimal field then Some (Some (CDouble field)) else None
      end
  end.

(** One record under the schema: the row with a null in place of every
    field that is missing or unreadable, and whether the record matched
    (as many fields as columns, each readable). *)
Fixpoint convert_record (cols : list (string * DataType)) (fields : list string)
    : Row * bool :=
  match cols, fields with
  | [], [] => ([], true)
  | [], _ :: _ => ([], false)
  | _ :: cols', [] => (None :: fst (convert_record cols' []), false)
  | (_, ty) :: cols', f :: fields' =>
      let rest := convert_record cols' fields' in
      match convert_cell ty f with
      | Some c => (c :: fst rest, snd rest)
      | None => (None :: fst rest, false)
      end
  end.

Definition data_records (opts : gmap string string) (records : list (list string))
    : list (list string) :=
  match opts !! "header" with
  | Some h => if String.eqb h "true" then tail records else records
  | None => records
  end.

Definition ddl_check (ddl : string) : outcome unit :=
  match parse_ddl ddl with
  | Some _ => Ok tt
  | None => Raise (RuntimeFailure "ParseException")
  end.

Definition load_check (r : Reader) (path : string) (o : option FileObj) : outcome unit :=
  match o with
  | Some _ => Ok tt
  | None => Raise (RuntimeFailure "Path does not exist")
  end.

Definition scan (r : Reader) (path : string) (o : option FileObj) : outcome (list Row) :=
  match o with
  | None => Raise (RuntimeFailure "Path does not exist")
  | Some (ParquetData _) => Raise (RuntimeFailure "Not a delimited-text source")
  | Some (CsvFile records) =>
      match r_schema r ≫= parse_ddl with
      | None => Raise (RuntimeFailure "No usable schema")
      | Some cols =>
          let converted := map (convert_record cols) (data_records (r_options r) records) in
          match parse_mode (r_options r) with
          | Permissive => Ok (map fst converted)
          | DropMalformed => Ok (map fst (filter (fun c => Is_true (snd c)) converted))
          | FailFast =>
              if forallb snd converted then Ok (map fst converted)
              else Raise (RuntimeFailure "Malformed records are detected in record parsing")
          end
      end
  end.

Definition engine : Engine :=
  Build_Engine ddl_check load_check scan.

End Spark.

(** ** PySpark's sources, columnar datasets included

    The same runtime, reading a columnar dataset back when the reader's
    format is parquet (the format of a reader that names none): the rows of
    its parts, in the order the parts were written. *)

Module SparkFiles.

Definition parquet_rows (parts : list (string * list Row)) : list Row :=
  concat (map snd parts).

Definition reads_parquet (r : Reader) : bool :=
  match r_format r with
  | Some f => String.eqb f "parquet"
  | None => true
  end.

Definition scan (r : Reader) (path : string) (o : option FileObj) : outcome (list Row) :=
  if reads_parquet r then
    match o with
    | None => Raise (RuntimeFailure "Path does not exist")
    | Some (CsvFile _) => Raise (RuntimeFailure "Not a columnar dataset")
    | Some (ParquetData parts) => Ok (parquet_rows parts)
    end
  else Spark.scan r path o.

Definition engine : Engine :=
  Build_Engine Spark.ddl_check Spark.load_check scan.

End SparkFiles.

(** * Reading a run *)

(** ** The calls of a run *)

Definition add_calls (es : list Event) (w : World) : World :=
  set_calls (calls w ++ es) w.

Definition calls_since (w w' : World) : list Event :=
  drop (length (calls w)) (calls w').

Definition loads (es : list Event) : list (Reader * string) :=
  flat_map (fun e => match e with ELoad r p => [(r, p)] | _ => [] end) es.

Definition counts (es : list Event) : list DataFrame :=
  flat_map (fun e => match e with ECount df => [df] | _ => [] end) es.

Definition writes (es : list Event) : list (Writer * string) :=
  flat_map (fun e => match e with EWriteParquet wr p => [(wr, p)] | _ => [] end) es.

Definition getenvs (es : list Event) : list string :=
  flat_map (fun e => match e with EGetenv k => [k] | _ => [] end) es.

(** ** What one conversion sets up *)

(** The reader [csv_to_parquet] hands to [load], the data frame it gets and
    the writer it runs, spelled out. *)
Definition csv_reader (spark : Session) (ddl : string) (multiline : bool) : Reader :=
  {| r_session := spark;
     r_format := Some "csv";
     r_options :=
       if multiline then
         {[ "header" := "true"; "multiLine" := "true"; "quote" := Text.dquote;
            "escape" := Text.dquote; "mode" := "PERMISSIVE" ]}
       else {[ "header" := "true" ]};
     r_schema := Some ddl |}.

Definition csv_frame (spark : Session) (inp ddl : string) (multiline : bool) : DataFrame :=
  {| df_reader := csv_reader spark ddl multiline; df_path := inp |}.

Definition csv_writer (df : DataFrame) : Writer :=
  {| w_df := df; w_mode := Some "overwrite";
     w_options := {[ "compression" := "snappy" ]} |}.

Definition banner (inp out : string) : list Event :=
  [EPrint (Text.newline +:+ Text.repeat_text "=" 60);
   EPrint ("Source (S3):    " +:+ inp);
   EPrint ("Output (Local): " +:+ out);
   EPrint (Text.repeat_text "=" 60)].

Definition conversion_result (n : nat) (out : string) : gmap string PyVal :=
  {[ "count" := VInt (Z.of_nat n); "output_path" := VStr out ]}.

(** ** What the import and the session provisioner set up *)

(** The globals an import leaves, from the two values it read. *)
Definition globals_of (bucket region : string) : Globals :=
  {| S3_BUCKET := bucket;
     AWS_REGION := region;
     S3_INPUT :=
       {[ "tracks" := "s3a://" +:+ bucket +:+ "/raw_tracks.csv";
          "genres" := "s3a://" +:+ bucket +:+ "/raw_genres.csv";
          "artists" := "s3a://" +:+ bucket +:+ "/raw_artists.csv" ]};
     LOCAL_OUTPUT :=
       {[ "tracks" := "data/processed/tracks.parquet";
          "genres" := "data/processed/genres.parquet";
          "artists" := "data/processed/artists.parquet" ]} |}.

(** The environment once the import has dropped CONTAINER_ID and merged the
    .env file. *)
Definition imported_environ (w : World) : gmap string string :=
  delete "CONTAINER_ID" (environ w) ∪ dotenv w.

(** The options [create_spark_session] has given the builder when it calls
    [getOrCreate]. *)
Definition session_options (region access secret : string) : gmap string string :=
  builder
  |> appName "FMA_CSV_to_Parquet"
  |> master "local[*]"
  |> config "spark.jars.packages"
       ("org.apache.hadoop:hadoop-aws:3.3.4," +:+
        "com.amazonaws:aws-java-sdk-bundle:1.12.262")
  |> config "spark.hadoop.fs.s3a.impl" "org.apache.hadoop.fs.s3a.S3AFileSystem"
  |> config "spark.hadoop.fs.s3a.access.key" access
  |> config "spark.hadoop.fs.s3a.secret.key" secret
  |> config "spark.hadoop.fs.s3a.endpoint" ("s3." +:+ region +:+ ".amazonaws.com")
  |> config "spark.hadoop.fs.s3a.path.style.access" "true"
  |> config "spark.hadoop.fs.s3a.connection.ssl.enabled" "true"
  |> config "spark.driver.memory" "4g"
  |> config "spark.sql.adaptive.enabled" "true"
  |> config "spark.sql.parquet.compression.codec" "snappy".

Definition credentials_message : string :=
  "AWS credentials not found. Set AWS_ACCESS_KEY_ID and " +:+
  "AWS_SECRET_ACCESS_KEY in environment or .env file.".

(** ** Properties of every call a program issues *)

(** Whatever the world and whatever the outcome, the program appends to the
    sequence of calls, and every call it appends satisfies [P]. *)
Definition emits {A} (P : Event -> Prop) (m : M A) : Prop :=
  forall w, exists es, calls (m w).2 = calls w ++ es /\ Forall P es.

(** The calls one conversion can issue. *)
Definition conversion_call (spark : Session) (inp out ddl : string) (ml : bool)
    (e : Event) : Prop :=
  match e with
  | EPrint _ => True
  | ELoad r p => r = csv_reader spark ddl ml /\ p = inp
  | ECount df => df = csv_frame spark inp ddl ml
  | EWriteParquet wr p => wr = csv_writer (csv_frame spark inp ddl ml) /\ p = out
  | _ => False
  end.

(** The calls [convert_all] can issue under the globals of an import. *)
Definition orchestration_call (bucket : string) (spark : Session) (e : Event) : Prop :=
  e = EMakedirs "data/processed" true \/
  conversion_call spark ("s3a://" +:+ bucket +:+ "/raw_tracks.csv")
    "data/processed/tracks.parquet" TRACKS_SCHEMA true e \/
  conversion_call spark ("s3a://" +:+ bucket +:+ "/raw_genres.csv")
    "data/processed/genres.parquet" GENRES_SCHEMA false e \/
  conversion_call spark ("s3a://" +:+ bucket +:+ "/raw_artists.csv")
    "data/processed/artists.parquet" ARTISTS_SCHEMA true e.

(** ** Programs that do not look at the environment *)

(** Run in a world with another environment, the program has the same
    outcome and leaves the same world, but for that environment. *)
Definition env_blind {A} (m : M A) : Prop :=
  forall env w, m (set_environ env w) = ((m w).1, set_environ env (m w).2).

(** ** The columns of the genres schema *)

Definition genres_fields : list (string * DataType) :=
  [("genre_id", IntegerType); ("genre_color", StringType);
   ("genre_handle", StringType); ("genre_parent_id", IntegerType);
   ("genre_title", StringType)].

(** ** Sample worlds *)

Module Sample.

Definition spark : Session :=
  {| conf := {[ "spark.master" := "local[*]" ]}; log_level := Some "WARN" |}.

Definition genres_in : string := "s3a://musicrec-data/raw_genres.csv".
Definition genres_out : string := "data/processed/genres.parquet".

Definition header : list string :=
  ["genre_id"; "genre_color"; "genre_handle"; "genre_parent_id"; "genre_title"].

(** A bucket with the three sources; every record matches its schema. *)
Definition bucket : gmap string FileObj :=
  {[ "s3a://musicrec-data/raw_tracks.csv" := CsvFile [["track_id"]];
     genres_in :=
       CsvFile [header;
                ["1"; "#006699"; "Avant-Garde"; "38"; "Avant-Garde"];
                ["2"; "#CC3300"; "International"; "0"; "International"]];
     "s3a://musicrec-data/raw_artists.csv" := CsvFile [["artist_id"]] ]}.

Definition world : World :=
  {| environ := {[ "AWS_ACCESS_KEY_ID" := "AKIAEXAMPLE";
                   "AWS_SECRET_ACCESS_KEY" := "secret" ]};
     dotenv := ∅;
     session := None;
     files := bucket;
     dirs := ∅;
     calls := [] |}.

(** The same, with a second genres record of two fields. *)
Definition short_record_world : World :=
  set_files
    (<[genres_in :=
         CsvFile [header;
                  ["1"; "#006699"; "Avant-Garde"; "38"; "Avant-Garde"];
                  ["x"; "y"]]]> bucket)
    world.

(** The same, with a columnar dataset where the genres source should be:
    [load] finds the path, the read of it fails. *)
Definition unreadable_world : World :=
  set_files (<[genres_in := ParquetData []]> bucket) world.

(** The same for the artists source. *)
Definition unreadable_artists_world : World :=
  set_files (<["s3a://musicrec-data/raw_artists.csv" := ParquetData []]> bucket) world.

(** What the import leaves in the sample world, and what [convert_all]
    returns there. *)
Definition globals : Globals := globals_of "musicrec-data" "ap-south-1".

Definition results : gmap string (gmap string PyVal) :=
  {[ "tracks" := conversion_result 0 "data/processed/tracks.parquet";
     "genres" := conversion_result 2 "data/processed/genres.parquet";
     "artists" := conversion_result 0 "data/processed/artists.parquet" ]}.

(** No credentials at all, and only the access key. *)
Definition no_credentials : World := set_environ ∅ world.

Definition empty_secret : World :=
  set_environ {[ "AWS_ACCESS_KEY_ID" := "AKIAEXAMPLE";
                 "AWS_SECRET_ACCESS_KEY" := Text.empty ]} world.

End Sample.

(** ** What further runs are read for *)

Definition prints (es : list Event) : list string :=
  flat_map (fun e => match e with EPrint line => [line] | _ => [] end) es.

Definition makedirs_calls (es : list Event) : list (string * bool) :=
  flat_map (fun e => match e with EMakedirs p ok => [(p, ok)] | _ => [] end) es.

(** Two worlds that differ at most in the sequence of calls. *)
Definition same_but_calls (w w' : World) : Prop :=
  environ w' = environ w /\ dotenv w' = dotenv w /\ session w' = session w /\
  files w' = files w /\ dirs w' = dirs w.

(** A program that only looks: whatever the outcome, it leaves the world
    as it was, but for the calls it issued. *)
Definition observes {A} (m : M A) : Prop :=
  forall w, same_but_calls w (m w).2.

(** An engine that reads a columnar dataset back: a reader in format
    parquet loads a path that holds one and materializes the rows of its
    parts. *)
Definition reads_parquet_back (E : Engine) : Prop :=
  forall r path parts,
    r_format r = Some "parquet" ->
    load_check E r path (Some (ParquetData parts)) = Ok tt /\
    scan E r path (Some (ParquetData parts)) = Ok (concat (map snd parts)).

(** The reader and the data frame of [load_parquet] for one path. *)
Definition parquet_reader (spark : Session) : Reader :=
  {| r_session := spark; r_format := Some "parquet"; r_options := ∅; r_schema := None |}.

Definition parquet_frame (spark : Session) (path : string) : DataFrame :=
  {| df_reader := parquet_reader spark; df_path := path |}.

(** A text without its commas. *)
Fixpoint strip_commas (s : string) : string :=
  match s with
  | EmptyString => EmptyString
  | String c rest =>
      if Ascii.eqb c ","%char then strip_commas rest else String c (strip_commas rest)
  end.

(** The column names a DDL text declares. *)
Definition ddl_names (ddl : string) : list string :=
  match parse_ddl ddl with
  | Some fs => map fst fs
  | None => []
  end.

(** The type a DDL text declares for a column. *)
Definition ddl_type (ddl name : string) : option DataType :=
  match parse_ddl ddl with
  | Some fs => snd <$> List.find (fun f => String.eqb (fst f) name) fs
  | None => None
  end.

(** A program that neither looks at the directories nor changes them. *)
Definition dirs_blind {A} (m : M A) : Prop :=
  forall d w, m (set_dirs d w) = ((m w).1, set_dirs d (m w).2).

(** What [convert_all] has done for one dataset when it returns: read
    [rows] from the source as the world it started in had it, left them at
    the destination, reported their number, and left the source alone. *)
Definition converted (E : Engine) (spark : Session) (w w' : World)
    (res : gmap string (gmap string PyVal))
    (name inp out ddl : string) (ml : bool) : Prop :=
  exists rows,
    scan E (csv_reader spark ddl ml) inp (files w !! inp) = Ok rows /\
    res !! name = Some (conversion_result (length rows) out) /\
    files w' !! out = Some (ParquetData [("snappy", rows)]) /\
    files w' !! inp = files w !! inp.

(** The calls [load_parquet] can issue. *)
Definition inspection_call (e : Event) : Prop :=
  match e with
  | EPrint _ | ELoad _ _ | ECount _ => True
  | _ => False
  end.

(** The three lines [run_pipeline] prints first. *)
Definition pipeline_banner : list Event :=
  [EPrint (Text.repeat_text "=" 60);
   EPrint "Music Data ETL Pipeline";
   EPrint (Text.repeat_text "=" 60)].

Definition strip_commas_list (l : list ascii) : list ascii :=
  List.filter (fun c => negb (Ascii.eqb c ","%char)) l.

#[global] Instance DataType_eq_dec : EqDecision DataType.
Proof. solve_decision. Defined.

(** ** Further sample worlds *)

Module Scenario.

(** A file sits where the output directory should be. *)
Definition blocked_world : World :=
  set_files (<["data/processed" := CsvFile []]> Sample.bucket) Sample.world.

(** The tracks source cannot be read. *)
Definition unreadable_tracks_world : World :=
  set_files (<["s3a://musicrec-data/raw_tracks.csv" := ParquetData []]> Sample.bucket)
    Sample.world.

(** Of the three outputs, only the tracks one is there. *)
Definition half_written_world : World :=
  set_files {[ "data/processed/tracks.parquet" := ParquetData [("snappy", [])] ]}
    Sample.world.

(** The credentials are in the .env file alone. *)
Definition dotenv_world : World :=
  {| environ := ∅;
     dotenv := {[ "AWS_ACCESS_KEY_ID" := "AKIAEXAMPLE";
                  "AWS_SECRET_ACCESS_KEY" := "secret" ]};
     session := None;
     files := Sample.bucket;
     dirs := ∅;
     calls := [] |}.

(** S3_BUCKET is set, to the empty text. *)
Definition empty_bucket_world : World :=
  set_environ {[ "S3_BUCKET" := Text.empty ]} Sample.world.

End Scenario.

(** * Runs of the primitives *)

Ltac unfold_prog :=
  cbv beta iota zeta delta
    [bind ret raise lift get_world update emit print
     materialize put_file remove_file].

Ltac world_simpl :=
  cbn [environ dotenv session files dirs calls
       set_environ set_session set_files set_dirs set_calls add_calls].

Lemma bind_run {A B} (m : M A) (k : A -> M B) w :
  bind m k w =
  match m w with
  | (Ok a, w') => k a w'
  | (Raise e, w') => (Raise e, w')
  end.
Proof. reflexivity. Qed.

Lemma bind_ok_inv {A B} (m : M A) (k : A -> M B) w b w' :
  bind m k w = (Ok b, w') ->
  exists a w1, m w = (Ok a, w1) /\ k a w1 = (Ok b, w').
Proof.
  unfold bind. destruct (m w) as [[a|e] w1]; [|discriminate].
  intros Hk. by exists a, w1.
Qed.

Lemma bind_ok_run {A B} (m : M A) (k : A -> M B) w a w1 :
  m w = (Ok a, w1) -> bind m k w = k a w1.
Proof. intros Hm. unfold bind. by rewrite Hm. Qed.

Lemma bind_raise_run {A B} (m : M A) (k : A -> M B) w e w1 :
  m w = (Raise e, w1) -> bind m k w = (Raise e, w1).
Proof. intros Hm. unfold bind. by rewrite Hm. Qed.

Lemma emit_run e w : emit e w = (Ok tt, add_calls [e] w).
Proof. reflexivity. Qed.

Lemma print_run line w : print line w = (Ok tt, add_calls [EPrint line] w).
Proof. reflexivity. Qed.

Lemma add_calls_app a b w : add_calls b (add_calls a w) = add_calls (a ++ b) w.
Proof. unfold add_calls, set_calls. simpl. by rewrite app_assoc. Qed.

Lemma add_calls_set_files es f w :
  add_calls es (set_files f w) = set_files f (add_calls es w).
Proof. reflexivity. Qed.

Lemma calls_since_add_calls es w : calls_since w (add_calls es w) = es.
Proof. unfold calls_since. world_simpl. by rewrite drop_app_length. Qed.

Lemma calls_since_set_files f es w :
  calls_since w (set_files f (add_calls es w)) = es.
Proof. apply calls_since_add_calls. Qed.

Lemma calls_since_set_environ env es w :
  calls_since w (set_environ env (add_calls es w)) = es.
Proof. apply calls_since_add_calls. Qed.

Lemma calls_since_set_session o es w :
  calls_since w (set_session o (add_calls es w)) = es.
Proof. apply calls_since_add_calls. Qed.

Lemma calls_since_refl w : calls_since w w = [].
Proof. unfold calls_since. apply drop_all. Qed.

Section RunLemmas.
Variable E : Engine.

Lemma schema_run ddl r w :
  schema E ddl r w =
  match ddl_check E ddl with
  | Ok _ => (Ok {| r_session := r_session r; r_format := r_format r;
                   r_options := r_options r; r_schema := Some ddl |}, w)
  | Raise e => (Raise e, w)
  end.
Proof. unfold schema. unfold_prog. by destruct (ddl_check E ddl). Qed.

Lemma load_run p r w :
  load E p r w =
  match load_check E r p (files w !! p) with
  | Ok _ => (Ok {| df_reader := r; df_path := p |}, add_calls [ELoad r p] w)
  | Raise e => (Raise e, add_calls [ELoad r p] w)
  end.
Proof.
  unfold load. unfold_prog. world_simpl.
  by destruct (load_check E r p (files w !! p)).
Qed.

Lemma count_run df w :
  count E df w =
  match scan E (df_reader df) (df_path df) (files w !! df_path df) with
  | Ok rows => (Ok (length rows), add_calls [ECount df] w)
  | Raise e => (Raise e, add_calls [ECount df] w)
  end.
Proof.
  unfold count. unfold_prog. world_simpl.
  by destruct (scan E _ _ _).
Qed.

Lemma parquet_overwrite_run p wr w :
  w_mode wr = Some "overwrite" ->
  p <> df_path (w_df wr) ->
  parquet E p wr w =
  match scan E (df_reader (w_df wr)) (df_path (w_df wr)) (files w !! df_path (w_df wr)) with
  | Ok rows =>
      (Ok tt, set_files (<[p := ParquetData [(write_codec wr, rows)]]> (files w))
                (add_calls [EWriteParquet wr p] w))
  | Raise e =>
      (Raise e, set_files (delete p (files w)) (add_calls [EWriteParquet wr p] w))
  end.
Proof.
  intros Hm Hp. unfold parquet. rewrite Hm.
  change (save_mode (Some "overwrite")) with (Some Overwrite).
  unfold_prog. world_simpl.
  destruct (String.eqb_spec p (df_path (w_df wr))) as [Heq|_]; [done|].
  rewrite lookup_delete_ne by done.
  destruct (scan E _ _ _); [|done].
  world_simpl. by rewrite insert_delete_eq.
Qed.

Lemma parquet_overwrite_self p wr w :
  w_mode wr = Some "overwrite" ->
  p = df_path (w_df wr) ->
  parquet E p wr w =
  (Raise (RuntimeFailure "Cannot overwrite a path that is also being read from"),
   add_calls [EWriteParquet wr p] w).
Proof.
  intros Hm Hp. unfold parquet. rewrite Hm.
  change (save_mode (Some "overwrite")) with (Some Overwrite).
  unfold_prog. world_simpl.
  by destruct (String.eqb_spec p (df_path (w_df wr))).
Qed.

End RunLemmas.

(** What [makedirs] leaves: the call in the sequence, possibly more
    directories, and nothing else changed. *)
Lemma makedirs_effect path exist_ok w :
  exists d, (makedirs path exist_ok w).2 =
            set_dirs d (add_calls [EMakedirs path exist_ok] w).
Proof.
  unfold makedirs. unfold_prog. world_simpl.
  destruct (first_file _ _); [by exists (dirs w)|].
  destruct (files w !! path); [by exists (dirs w)|].
  destruct (decide _); [destruct exist_ok; by exists (dirs w)|].
  by eexists.
Qed.

(** * Runs of one conversion *)

Section Conversion.
Variable E : Engine.

(** The five ways a conversion can go: the schema text is refused; [load]
    refuses; the count fails; the destination is the source; or it returns,
    with the destination replaced by the rows read. *)
Lemma csv_to_parquet_run spark inp out ddl ml w :
  csv_to_parquet E spark inp out ddl ml w =
  let r := csv_reader spark ddl ml in
  let df := csv_frame spark inp ddl ml in
  let wr := csv_writer df in
  match ddl_check E ddl with
  | Raise e => (Raise e, add_calls (banner inp out) w)
  | Ok _ =>
      match load_check E r inp (files w !! inp) with
      | Raise e => (Raise e, add_calls (banner inp out ++ [ELoad r inp]) w)
      | Ok _ =>
          match scan E r inp (files w !! inp) with
          | Raise e =>
              (Raise e, add_calls (banner inp out ++ [ELoad r inp; ECount df]) w)
          | Ok rows =>
              let counted := EPrint ("Records read: " +:+ Text.thousands (length rows)) in
              if String.eqb out inp then
                (Raise (RuntimeFailure "Cannot overwrite a path that is also being read from"),
                 add_calls (banner inp out ++
                            [ELoad r inp; ECount df; counted; EWriteParquet wr out]) w)
              else
                (Ok (conversion_result (length rows) out),
                 set_files (<[out := ParquetData [("snappy", rows)]]> (files w))
                   (add_calls (banner inp out ++
                               [ELoad r inp; ECount df; counted; EWriteParquet wr out;
                                EPrint ("✓ Parquet written to " +:+ out)]) w))
          end
      end
  end.
Proof.
  unfold csv_to_parquet.
  do 4 (rewrite bind_run, print_run; cbv iota). rewrite !add_calls_app.
  rewrite bind_run, schema_run.
  destruct (ddl_check E ddl) as [[]|e]; [|done].
  cbv beta iota zeta.
  match goal with |- context [load E inp ?r] =>
    replace r with (csv_reader spark ddl ml) by (by destruct ml) end.
  rewrite bind_run, load_run. world_simpl.
  destruct (load_check E _ _ _) as [[]|e]; rewrite add_calls_app; [|done].
  rewrite bind_run, count_run. world_simpl.
  change (scan E _ _ _) with
    (scan E (csv_reader spark ddl ml) inp (files w !! inp)).
  destruct (scan E _ _ _) as [rows|e] eqn:Hs; rewrite add_calls_app, <- ?app_assoc; [|done].
  rewrite bind_run, print_run, add_calls_app, <- ?app_assoc. cbv iota.
  rewrite bind_run.
  destruct (String.eqb_spec out inp) as [Heq|Hne].
  - rewrite parquet_overwrite_self by done.
    by rewrite add_calls_app, <- ?app_assoc.
  - rewrite parquet_overwrite_run by done.
    world_simpl.
    change (scan E _ _ _) with
      (scan E (csv_reader spark ddl ml) inp (files w !! inp)).
    rewrite Hs. cbv iota.
    rewrite bind_run, print_run. cbv iota. unfold ret.
    rewrite ?add_calls_set_files, !add_calls_app, <- ?app_assoc.
    reflexivity.
Qed.
End Conversion.

Section ConversionFacts.
Variable E : Engine.

(** A conversion that returns passed every check, read [rows] and is
    exactly the last case of [csv_to_parquet_run]. *)
Lemma csv_to_parquet_ok_inv spark inp out ddl ml w res w' :
  csv_to_parquet E spark inp out ddl ml w = (Ok res, w') ->
  exists rows,
    ddl_check E ddl = Ok tt /\
    load_check E (csv_reader spark ddl ml) inp (files w !! inp) = Ok tt /\
    scan E (csv_reader spark ddl ml) inp (files w !! inp) = Ok rows /\
    out <> inp /\
    res = conversion_result (length rows) out /\
    w' = set_files (<[out := ParquetData [("snappy", rows)]]> (files w))
           (add_calls
              (banner inp out ++
               [ELoad (csv_reader spark ddl ml) inp;
                ECount (csv_frame spark inp ddl ml);
                EPrint ("Records read: " +:+ Text.thousands (length rows));
                EWriteParquet (csv_writer (csv_frame spark inp ddl ml)) out;
                EPrint ("✓ Parquet written to " +:+ out)]) w).
Proof.
  rewrite csv_to_parquet_run. cbv zeta.
  destruct (ddl_check E ddl) as [[]|]; [|discriminate].
  destruct (load_check E _ _ _) as [[]|]; [|discriminate].
  destruct (scan E _ _ _) as [rows|]; [|discriminate].
  destruct (String.eqb_spec out inp); [discriminate|].
  intros [= <- <-]. by exists rows.
Qed.

(** A conversion that raises leaves every file as it was. *)
Lemma csv_to_parquet_raise_files spark inp out ddl ml w e w' :
  csv_to_parquet E spark inp out ddl ml w = (Raise e, w') ->
  files w' = files w.
Proof.
  rewrite csv_to_parquet_run. cbv zeta.
  destruct (ddl_check E ddl) as [[]|]; [|by intros [= _ <-]].
  destruct (load_check E _ _ _) as [[]|]; [|by intros [= _ <-]].
  destruct (scan E _ _ _) as [rows|]; [|by intros [= _ <-]].
  destruct (String.eqb_spec out inp); [by intros [= _ <-]|discriminate].
Qed.

(** No conversion touches a path other than its destination. *)
Lemma csv_to_parquet_frame spark inp out ddl ml w p :
  p <> out ->
  files (csv_to_parquet E spark inp out ddl ml w).2 !! p = files w !! p.
Proof.
  intros Hp. destruct (csv_to_parquet E spark inp out ddl ml w) as [[res|e] w'] eqn:Hrun.
  - apply csv_to_parquet_ok_inv in Hrun as (rows & _ & _ & _ & _ & _ & ->).
    cbn [snd]. world_simpl. by rewrite lookup_insert_ne.
  - apply csv_to_parquet_raise_files in Hrun. cbn [snd]. by rewrite Hrun.
Qed.

End ConversionFacts.

(** A conversion that returned, run again in the world it left, returns the
    same dictionary and leaves every file as the first run left it. *)
Lemma csv_to_parquet_again (E : Engine) spark inp out ddl ml w res w' :
  csv_to_parquet E spark inp out ddl ml w = (Ok res, w') ->
  exists w'',
    csv_to_parquet E spark inp out ddl ml w' = (Ok res, w'') /\
    files w'' = files w'.
Proof.
  intros Hrun.
  apply csv_to_parquet_ok_inv in Hrun as (rows & Hddl & Hload & Hscan & Hne & -> & ->).
  rewrite csv_to_parquet_run. cbv zeta. world_simpl.
  rewrite lookup_insert_ne by done. rewrite Hddl, Hload, Hscan.
  destruct (String.eqb_spec out inp) as [|_]; [done|].
  eexists. split; [reflexivity|]. world_simpl. apply insert_insert_eq.
Qed.

(** * Runs of the import, the provisioner and the orchestration *)

(** The import always returns. *)
Lemma import_module_run w :
  import_module w =
  (Ok (globals_of (default "musicrec-data" (imported_environ w !! "S3_BUCKET"))
                  (default "ap-south-1" (imported_environ w !! "AWS_REGION"))),
   set_environ (imported_environ w)
     (add_calls [EEnvironPop "CONTAINER_ID"; ELoadDotenv;
                 EGetenv "S3_BUCKET"; EGetenv "AWS_REGION"] w)).
Proof.
  unfold import_module, getenv_default, getenv, environ_pop, load_dotenv.
  unfold_prog. world_simpl.
  unfold imported_environ, globals_of, set_environ, add_calls, set_calls.
  world_simpl. rewrite <- !app_assoc.
  by destruct (_ !! "S3_BUCKET"), (_ !! "AWS_REGION").
Qed.

Lemma import_module_globals w0 g w1 :
  import_module w0 = (Ok g, w1) ->
  g = globals_of (S3_BUCKET g) (AWS_REGION g) /\
  S3_BUCKET g = default "musicrec-data" (imported_environ w0 !! "S3_BUCKET") /\
  AWS_REGION g = default "ap-south-1" (imported_environ w0 !! "AWS_REGION").
Proof. rewrite import_module_run. by intros [= <- _]. Qed.

Lemma truthy_false v : truthy v = false <-> v = None \/ v = Some Text.empty.
Proof.
  destruct v as [[|c s]|]; cbn; split; try done; try (by left); try (by right).
  all: intros [|]; done.
Qed.

(** The two ways the provisioner can go. *)
Lemma create_spark_session_run g w :
  create_spark_session g w =
  let access := environ w !! "AWS_ACCESS_KEY_ID" in
  let secret := environ w !! "AWS_SECRET_ACCESS_KEY" in
  let reads := [EGetenv "AWS_ACCESS_KEY_ID"; EGetenv "AWS_SECRET_ACCESS_KEY"] in
  if negb (truthy access) || negb (truthy secret) then
    (Raise (ValueError credentials_message), add_calls reads w)
  else
    let b := session_options (AWS_REGION g) (env_text access) (env_text secret) in
    let sess :=
      {| conf := match session w with Some s0 => b ∪ conf s0 | None => b end;
         log_level := Some "WARN" |} in
    (Ok sess,
     set_session (Some sess)
       (add_calls
          (reads ++
           [EPrint ("Initializing Spark with S3 access to region: " +:+ AWS_REGION g);
            EGetOrCreate b; ESetLogLevel "WARN"]) w)).
Proof.
  unfold create_spark_session, getenv. unfold_prog. world_simpl.
  destruct (negb _ || negb _).
  - unfold add_calls, set_calls. world_simpl. by rewrite <- !app_assoc.
  - unfold getOrCreate, setLogLevel. unfold_prog. world_simpl.
    unfold add_calls, set_calls, set_session. world_simpl. rewrite <- !app_assoc.
    by destruct (session w).
Qed.

Section Orchestration.
Variable E : Engine.

(** With the globals an import leaves, every subscript of [convert_all]
    finds its key. *)
Lemma convert_all_imported bucket region spark :
  convert_all E (globals_of bucket region) spark =
  (do _ <- makedirs "data/processed" true ;;
   do r1 <- csv_to_parquet E spark ("s3a://" +:+ bucket +:+ "/raw_tracks.csv")
              "data/processed/tracks.parquet" TRACKS_SCHEMA true ;;
   do r2 <- csv_to_parquet E spark ("s3a://" +:+ bucket +:+ "/raw_genres.csv")
              "data/processed/genres.parquet" GENRES_SCHEMA false ;;
   do r3 <- csv_to_parquet E spark ("s3a://" +:+ bucket +:+ "/raw_artists.csv")
              "data/processed/artists.parquet" ARTISTS_SCHEMA true ;;
   ret (<["artists" := r3]> (<["genres" := r2]> (<["tracks" := r1]> ∅)))).
Proof. reflexivity. Qed.

Lemma csv_to_parquet_ok_calls spark inp out ddl ml w res w' :
  csv_to_parquet E spark inp out ddl ml w = (Ok res, w') ->
  exists es,
    calls w' = calls w ++ es /\
    loads es = [(csv_reader spark ddl ml, inp)] /\
    writes es = [(csv_writer (csv_frame spark inp ddl ml), out)].
Proof.
  intros Hrun.
  apply csv_to_parquet_ok_inv in Hrun as (rows & _ & _ & _ & _ & _ & ->).
  eexists. split; [reflexivity|]. by split.
Qed.

End Orchestration.

(** What a returning [makedirs] of the output directory found and left. *)
Lemma makedirs_ok_inv w wa :
  makedirs "data/processed" true w = (Ok tt, wa) ->
  files w !! "data" = None /\
  files w !! "data/processed" = None /\
  "data/processed" ∈ dirs wa /\
  files wa = files w /\
  calls wa = calls w ++ [EMakedirs "data/processed" true].
Proof.
  unfold makedirs. unfold_prog. world_simpl.
  change (ancestors "data/processed") with ["data"]. cbn [first_file].
  destruct (files w !! "data"); [discriminate|].
  destruct (files w !! "data/processed"); [discriminate|].
  destruct (decide _) as [Hin|Hnot]; intros [= <-]; world_simpl;
    repeat split; try done.
  set_solver.
Qed.

(** A returning [convert_all], step by step. *)
Lemma convert_all_ok_inv (E : Engine) bucket region spark w res w' :
  convert_all E (globals_of bucket region) spark w = (Ok res, w') ->
  exists wa wb wc r1 r2 r3,
    makedirs "data/processed" true w = (Ok tt, wa) /\
    csv_to_parquet E spark ("s3a://" +:+ bucket +:+ "/raw_tracks.csv")
      "data/processed/tracks.parquet" TRACKS_SCHEMA true wa = (Ok r1, wb) /\
    csv_to_parquet E spark ("s3a://" +:+ bucket +:+ "/raw_genres.csv")
      "data/processed/genres.parquet" GENRES_SCHEMA false wb = (Ok r2, wc) /\
    csv_to_parquet E spark ("s3a://" +:+ bucket +:+ "/raw_artists.csv")
      "data/processed/artists.parquet" ARTISTS_SCHEMA true wc = (Ok r3, w') /\
    res = <["artists" := r3]> (<["genres" := r2]> (<["tracks" := r1]> ∅)).
Proof.
  rewrite convert_all_imported. intros Hrun.
  apply bind_ok_inv in Hrun as ([] & wa & Hdirs & Hrun).
  apply bind_ok_inv in Hrun as (r1 & wb & Htracks & Hrun).
  apply bind_ok_inv in Hrun as (r2 & wc & Hgenres & Hrun).
  apply bind_ok_inv in Hrun as (r3 & wd & Hartists & Hrun).
  injection Hrun as <- <-. by exists wa, wb, wc, r1, r2, r3.
Qed.

(** The file at [p] after a returning conversion, for [p] not its
    destination. *)
Lemma csv_to_parquet_ok_frame (E : Engine) spark inp out ddl ml w res w' p :
  csv_to_parquet E spark inp out ddl ml w = (Ok res, w') ->
  p <> out ->
  files w' !! p = files w !! p.
Proof.
  intros Hrun Hp.
  pose proof (csv_to_parquet_frame E spark inp out ddl ml w p Hp) as Hframe.
  by rewrite Hrun in Hframe.
Qed.

Ltac paths_differ :=
  let H := fresh in intros H; cbn in H; discriminate H.

(** What a returning [convert_all] has done for each dataset. *)
Lemma convert_all_ok_converted (E : Engine) bucket region spark w res w' :
  convert_all E (globals_of bucket region) spark w = (Ok res, w') ->
  converted E spark w w' res "tracks" ("s3a://" +:+ bucket +:+ "/raw_tracks.csv")
    "data/processed/tracks.parquet" TRACKS_SCHEMA true /\
  converted E spark w w' res "genres" ("s3a://" +:+ bucket +:+ "/raw_genres.csv")
    "data/processed/genres.parquet" GENRES_SCHEMA false /\
  converted E spark w w' res "artists" ("s3a://" +:+ bucket +:+ "/raw_artists.csv")
    "data/processed/artists.parquet" ARTISTS_SCHEMA true.
Proof.
  intros Hrun.
  apply convert_all_ok_inv in Hrun
    as (wa & wb & wc & r1 & r2 & r3 & Hdirs & Htracks & Hgenres & Hartists & ->).
  apply makedirs_ok_inv in Hdirs as (_ & _ & _ & Hfa & _).
  pose proof (fun p => csv_to_parquet_ok_frame _ _ _ _ _ _ _ _ _ p Htracks) as Ht.
  pose proof (fun p => csv_to_parquet_ok_frame _ _ _ _ _ _ _ _ _ p Hgenres) as Hgn.
  pose proof (fun p => csv_to_parquet_ok_frame _ _ _ _ _ _ _ _ _ p Hartists) as Har.
  apply csv_to_parquet_ok_inv in Htracks as (rows1 & _ & _ & Hs1 & _ & -> & Hwb).
  apply csv_to_parquet_ok_inv in Hgenres as (rows2 & _ & _ & Hs2 & _ & -> & Hwc).
  apply csv_to_parquet_ok_inv in Hartists as (rows3 & _ & _ & Hs3 & _ & -> & Hwd).
  split; [|split].
  - exists rows1. rewrite <- Hfa. split; [exact Hs1|]. split; [reflexivity|].
    split.
    + rewrite Har, Hgn by paths_differ. rewrite Hwb. world_simpl.
      apply lookup_insert_eq.
    + rewrite Har, Hgn, Ht by paths_differ. done.
  - exists rows2. rewrite <- Hfa. rewrite <- Ht by paths_differ.
    split; [exact Hs2|]. split; [reflexivity|]. split.
    + rewrite Har by paths_differ. rewrite Hwc. world_simpl.
      apply lookup_insert_eq.
    + rewrite Har, Hgn by paths_differ. done.
  - exists rows3. rewrite <- Hfa. rewrite <- Ht, <- Hgn by paths_differ.
    split; [exact Hs3|]. split; [reflexivity|]. split.
    + rewrite Hwd. world_simpl. apply lookup_insert_eq.
    + rewrite Har by paths_differ. done.
Qed.

(** The writes of a returning [convert_all], in order. *)
Lemma convert_all_ok_writes (E : Engine) bucket region spark w res w' :
  convert_all E (globals_of bucket region) spark w = (Ok res, w') ->
  writes (calls_since w w') =
    [(csv_writer (csv_frame spark ("s3a://" +:+ bucket +:+ "/raw_tracks.csv")
                    TRACKS_SCHEMA true), "data/processed/tracks.parquet");
     (csv_writer (csv_frame spark ("s3a://" +:+ bucket +:+ "/raw_genres.csv")
                    GENRES_SCHEMA false), "data/processed/genres.parquet");
     (csv_writer (csv_frame spark ("s3a://" +:+ bucket +:+ "/raw_artists.csv")
                    ARTISTS_SCHEMA true), "data/processed/artists.parquet")].
Proof.
  intros Hrun.
  apply convert_all_ok_inv in Hrun
    as (wa & wb & wc & r1 & r2 & r3 & Hdirs & Htracks & Hgenres & Hartists & _).
  apply makedirs_ok_inv in Hdirs as (_ & _ & _ & _ & Hd).
  apply csv_to_parquet_ok_calls in Htracks as (d1 & H1 & _ & Hw1).
  apply csv_to_parquet_ok_calls in Hgenres as (d2 & H2 & _ & Hw2).
  apply csv_to_parquet_ok_calls in Hartists as (d3 & H3 & _ & Hw3).
  unfold calls_since. rewrite H3, H2, H1, Hd, <- !app_assoc, drop_app_length.
  unfold writes in *. rewrite !flat_map_app, Hw1, Hw2, Hw3. reflexivity.
Qed.

(** With both credentials set and not empty, the provisioner returns. *)
Lemma create_spark_session_ok_intro g w a s :
  environ w !! "AWS_ACCESS_KEY_ID" = Some a ->
  environ w !! "AWS_SECRET_ACCESS_KEY" = Some s ->
  a <> Text.empty -> s <> Text.empty ->
  let b := session_options (AWS_REGION g) a s in
  let sess :=
    {| conf := match session w with Some s0 => b ∪ conf s0 | None => b end;
       log_level := Some "WARN" |} in
  create_spark_session g w =
  (Ok sess,
   set_session (Some sess)
     (add_calls
        [EGetenv "AWS_ACCESS_KEY_ID"; EGetenv "AWS_SECRET_ACCESS_KEY";
         EPrint ("Initializing Spark with S3 access to region: " +:+ AWS_REGION g);
         EGetOrCreate b; ESetLogLevel "WARN"] w)).
Proof.
  intros Ha Hs Hane Hsne. rewrite create_spark_session_run. cbv zeta.
  rewrite Ha, Hs.
  destruct a as [|ca a]; [done|]. destruct s as [|cs s]; [done|].
  reflexivity.
Qed.

(** An option the provisioner gives the builder is an option of the
    session, whether or not a session was there. *)
Lemma session_conf_option (b : gmap string string) (old : option Session) key v :
  b !! key = Some v ->
  match old with Some s0 => b ∪ conf s0 | None => b end !! key = Some v.
Proof. intros Hb. destruct old; [by apply lookup_union_Some_l|done]. Qed.

(** The loads of a returning [convert_all], in order. *)
Lemma convert_all_ok_loads (E : Engine) bucket region spark w res w' :
  convert_all E (globals_of bucket region) spark w = (Ok res, w') ->
  loads (calls_since w w') =
    [(csv_reader spark TRACKS_SCHEMA true, "s3a://" +:+ bucket +:+ "/raw_tracks.csv");
     (csv_reader spark GENRES_SCHEMA false, "s3a://" +:+ bucket +:+ "/raw_genres.csv");
     (csv_reader spark ARTISTS_SCHEMA true, "s3a://" +:+ bucket +:+ "/raw_artists.csv")].
Proof.
  intros Hrun.
  apply convert_all_ok_inv in Hrun
    as (wa & wb & wc & r1 & r2 & r3 & Hdirs & Htracks & Hgenres & Hartists & _).
  apply makedirs_ok_inv in Hdirs as (_ & _ & _ & _ & Hd).
  apply csv_to_parquet_ok_calls in Htracks as (d1 & H1 & Hl1 & _).
  apply csv_to_parquet_ok_calls in Hgenres as (d2 & H2 & Hl2 & _).
  apply csv_to_parquet_ok_calls in Hartists as (d3 & H3 & Hl3 & _).
  unfold calls_since. rewrite H3, H2, H1, Hd, <- !app_assoc, drop_app_length.
  unfold loads in *. rewrite !flat_map_app, Hl1, Hl2, Hl3. reflexivity.
Qed.

(** * The calls a program can issue *)

Lemma emits_since {A} P (m : M A) w :
  emits P m -> Forall P (calls_since w (m w).2).
Proof.
  intros Hm. destruct (Hm w) as (es & Hcalls & HP).
  unfold calls_since. by rewrite Hcalls, drop_app_length.
Qed.

Lemma emits_mono {A} (P Q : Event -> Prop) (m : M A) :
  (forall e, P e -> Q e) -> emits P m -> emits Q m.
Proof.
  intros HPQ Hm w. destruct (Hm w) as (es & Hcalls & HP).
  exists es. split; [done|]. by eapply Forall_impl.
Qed.

Lemma emits_ret {A} P (a : A) : emits P (ret a).
Proof. intros w. exists []. by rewrite app_nil_r. Qed.

Lemma emits_bind {A B} P (m : M A) (k : A -> M B) :
  emits P m -> (forall a, emits P (k a)) -> emits P (bind m k).
Proof.
  intros Hm Hk w. unfold bind.
  destruct (Hm w) as (es & Hcalls & HP).
  destruct (m w) as [[a|e] w1]; cbn [snd] in *.
  - destruct (Hk a w1) as (es' & Hcalls' & HP').
    exists (es ++ es'). rewrite Hcalls', Hcalls, app_assoc.
    split; [done|]. by apply Forall_app.
  - by exists es.
Qed.

Lemma emits_makedirs (P : Event -> Prop) path exist_ok :
  P (EMakedirs path exist_ok) -> emits P (makedirs path exist_ok).
Proof.
  intros HP w. destruct (makedirs_effect path exist_ok w) as [d ->].
  exists [EMakedirs path exist_ok]. split; [done|]. by constructor.
Qed.

Lemma emits_csv_to_parquet (E : Engine) spark inp out ddl ml :
  emits (conversion_call spark inp out ddl ml)
        (csv_to_parquet E spark inp out ddl ml).
Proof.
  intros w. rewrite csv_to_parquet_run. cbv zeta.
  destruct (ddl_check E ddl) as [[]|];
    [destruct (load_check E _ _ _) as [[]|];
      [destruct (scan E _ _ _) as [rows|]; [destruct (String.eqb out inp)|]|]|];
    cbn [snd]; world_simpl; (eexists; split; [reflexivity|]);
    unfold banner; cbn [app]; repeat constructor.
Qed.

Lemma emits_convert_all (E : Engine) bucket region spark :
  emits (orchestration_call bucket spark)
        (convert_all E (globals_of bucket region) spark).
Proof.
  rewrite convert_all_imported. unfold orchestration_call.
  apply emits_bind; [apply emits_makedirs; by left|]. intros _.
  apply emits_bind;
    [eapply emits_mono; [|apply emits_csv_to_parquet]; cbv beta; tauto|]. intros r1.
  apply emits_bind;
    [eapply emits_mono; [|apply emits_csv_to_parquet]; cbv beta; tauto|]. intros r2.
  apply emits_bind;
    [eapply emits_mono; [|apply emits_csv_to_parquet]; cbv beta; tauto|]. intros r3.
  apply emits_ret.
Qed.

Lemma writes_In es wr p : In (wr, p) (writes es) -> In (EWriteParquet wr p) es.
Proof.
  unfold writes. rewrite in_flat_map. intros (e & He & Hin).
  destruct e; cbn in Hin; try done. destruct Hin as [[= <- <-]|[]]. done.
Qed.

Lemma loads_In es r p : In (r, p) (loads es) -> In (ELoad r p) es.
Proof.
  unfold loads. rewrite in_flat_map. intros (e & He & Hin).
  destruct e; cbn in Hin; try done. destruct Hin as [[= <- <-]|[]]. done.
Qed.

Lemma getenvs_nil es :
  Forall (fun e => forall k, e <> EGetenv k) es -> getenvs es = [].
Proof.
  induction 1 as [|e es He _ IH]; [done|].
  unfold getenvs in *. cbn [flat_map]. rewrite IH.
  destruct e; try done. by destruct (He key).
Qed.

(** * Independence from the environment *)

Lemma env_blind_ret {A} (a : A) : env_blind (ret a).
Proof. done. Qed.

Lemma env_blind_bind {A B} (m : M A) (k : A -> M B) :
  env_blind m -> (forall a, env_blind (k a)) -> env_blind (bind m k).
Proof.
  intros Hm Hk env w. unfold bind. rewrite Hm.
  destruct (m w) as [[a|e] w1]; cbn [fst snd]; [apply Hk|done].
Qed.

Lemma env_blind_makedirs path exist_ok : env_blind (makedirs path exist_ok).
Proof.
  intros env w. unfold makedirs. unfold_prog. world_simpl.
  destruct (first_file _ _); [done|].
  destruct (files w !! path); [done|].
  destruct (decide _); [by destruct exist_ok|done].
Qed.

Lemma env_blind_csv_to_parquet (E : Engine) spark inp out ddl ml :
  env_blind (csv_to_parquet E spark inp out ddl ml).
Proof.
  intros env w. rewrite !csv_to_parquet_run. cbv zeta. world_simpl.
  destruct (ddl_check E ddl) as [[]|]; [|done].
  destruct (load_check E _ _ _) as [[]|]; [|done].
  destruct (scan E _ _ _) as [rows|]; [|done].
  by destruct (String.eqb out inp).
Qed.

Lemma env_blind_convert_all (E : Engine) bucket region spark :
  env_blind (convert_all E (globals_of bucket region) spark).
Proof.
  rewrite convert_all_imported.
  apply env_blind_bind; [apply env_blind_makedirs|]. intros _.
  apply env_blind_bind; [apply env_blind_csv_to_parquet|]. intros r1.
  apply env_blind_bind; [apply env_blind_csv_to_parquet|]. intros r2.
  apply env_blind_bind; [apply env_blind_csv_to_parquet|]. intros r3.
  apply env_blind_ret.
Qed.

(** * The CSV source on the genres schema *)

Lemma convert_record_length cols fields :
  length (Spark.convert_record cols fields).1 = length cols.
Proof.
  revert fields. induction cols as [|[name ty] cols IH]; intros [|f fields]; cbn; try done.
  - by rewrite IH.
  - destruct (Spark.convert_cell ty f); cbn; by rewrite IH.
Qed.

(** Cell by cell: under a declared column, the cell of a record is null
    when the record has no field there or the field cannot be read as the
    declared type, and what the field reads as otherwise. *)
Lemma convert_record_cell cols fields i name ty :
  cols !! i = Some (name, ty) ->
  (Spark.convert_record cols fields).1 !! i =
  Some (match fields !! i with
        | None => None
        | Some field => default None (Spark.convert_cell ty field)
        end).
Proof.
  revert fields i.
  induction cols as [|[n t] cols IH]; intros fields i Hcol; [done|].
  destruct fields as [|f fields], i as [|i]; cbn in Hcol |- *.
  - done.
  - exact (IH [] i Hcol).
  - injection Hcol as -> ->. by destruct (Spark.convert_cell ty f).
  - destruct (Spark.convert_cell t f); exact (IH fields i Hcol).
Qed.

Lemma genres_columns : parse_ddl GENRES_SCHEMA = Some genres_fields.
Proof. vm_compute. reflexivity. Qed.

(** Under the reader of a conversion without [multiline], the CSV source
    turns every data record into a row as wide as the schema. *)
Lemma spark_scan_single_line spark ddl cols inp records :
  parse_ddl ddl = Some cols ->
  scan Spark.engine (csv_reader spark ddl false) inp (Some (CsvFile records)) =
  Ok (map (fun fields => (Spark.convert_record cols fields).1) (tail records)).
Proof.
  intros Hcols. cbn [scan Spark.engine Spark.scan csv_reader r_schema r_options].
  cbn [mbind option_bind]. rewrite Hcols.
  change (Spark.parse_mode {[ "header" := "true" ]}) with Spark.Permissive.
  change (Spark.data_records {[ "header" := "true" ]} records) with (tail records).
  cbv iota zeta. by rewrite map_map.
Qed.

(** * The claims *)

(** C1.  A call of [csv_to_parquet] that returns gives a dictionary with
    exactly the keys "count" and "output_path"; "count" is the number of
    rows the read under the given schema materializes, "output_path" is the
    [output_path] argument as passed, and the rows written at the
    destination are those rows, so the count is the number written. *)
Theorem csv_to_parquet_returns_count_and_path
    (E : Engine) spark inp out ddl ml w res w' :
  csv_to_parquet E spark inp out ddl ml w = (Ok res, w') ->
  exists r rows,
    loads (calls_since w w') = [(r, inp)] /\
    r_schema r = Some ddl /\
    scan E r inp (files w !! inp) = Ok rows /\
    dom res = {[ "count"; "output_path" ]} /\
    res !! "count" = Some (VInt (Z.of_nat (length rows))) /\
    res !! "output_path" = Some (VStr out) /\
    files w' !! out = Some (ParquetData [("snappy", rows)]).
Proof.
  intros Hrun.
  apply csv_to_parquet_ok_inv in Hrun as (rows & _ & _ & Hscan & _ & -> & ->).
  exists (csv_reader spark ddl ml), rows.
  split; [by rewrite calls_since_set_files|].
  split; [done|]. split; [done|].
  split; [unfold conversion_result; rewrite dom_insert_L, dom_singleton_L; set_solver|].
  split; [done|]. split; [done|].
  world_simpl. apply lookup_insert_eq.
Qed.

(** Witness of C1: the genres conversion of the sample world. *)
Lemma csv_to_parquet_returns_count_and_path_witness :
  let run := csv_to_parquet Spark.engine Sample.spark Sample.genres_in
               Sample.genres_out GENRES_SCHEMA false Sample.world in
  run = (Ok (conversion_result 2 Sample.genres_out), run.2) /\
  exists r rows,
    loads (calls_since Sample.world run.2) = [(r, Sample.genres_in)] /\
    r_schema r = Some GENRES_SCHEMA /\
    scan Spark.engine r Sample.genres_in (files Sample.world !! Sample.genres_in) = Ok rows /\
    dom (conversion_result 2 Sample.genres_out) = {[ "count"; "output_path" ]} /\
    conversion_result 2 Sample.genres_out !! "count" = Some (VInt (Z.of_nat (length rows))) /\
    conversion_result 2 Sample.genres_out !! "output_path" = Some (VStr Sample.genres_out) /\
    files run.2 !! Sample.genres_out = Some (ParquetData [("snappy", rows)]).
Proof.
  intros run.
  assert (Hrun : run = (Ok (conversion_result 2 Sample.genres_out), run.2))
    by (vm_compute; reflexivity).
  split; [exact Hrun|].
  exact (csv_to_parquet_returns_count_and_path Spark.engine Sample.spark
           Sample.genres_in Sample.genres_out GENRES_SCHEMA false Sample.world
           (conversion_result 2 Sample.genres_out) run.2 Hrun).
Defined.

(** Counterexample to C2 as stated: a genres source whose second record has
    two fields instead of five is converted; the record is counted and
    written with nulls where it has nothing readable. *)
Lemma genres_short_record_is_kept :
  let run := csv_to_parquet Spark.engine Sample.spark Sample.genres_in
               Sample.genres_out GENRES_SCHEMA false Sample.short_record_world in
  files Sample.short_record_world !! Sample.genres_in =
    Some (CsvFile [Sample.header;
                   ["1"; "#006699"; "Avant-Garde"; "38"; "Avant-Garde"];
                   ["x"; "y"]]) /\
  ddl_columns GENRES_SCHEMA = Some 5%nat /\
  length ["x"; "y"] <> 5%nat /\
  (forall e, run.1 <> Raise e) /\
  run.1 = Ok (conversion_result 2 Sample.genres_out) /\
  files run.2 !! Sample.genres_out =
    Some (ParquetData
            [("snappy",
              [[Some (CInt 1); Some (CText "#006699"); Some (CText "Avant-Garde");
                Some (CInt 38); Some (CText "Avant-Garde")];
               [None; Some (CText "y"); None; None; None]])]).
Proof.
  cbv zeta.
  assert (Hrun : (csv_to_parquet Spark.engine Sample.spark Sample.genres_in
                    Sample.genres_out GENRES_SCHEMA false Sample.short_record_world).1
                 = Ok (conversion_result 2 Sample.genres_out))
    by (vm_compute; reflexivity).
  split; [vm_compute; reflexivity|]. split; [vm_compute; reflexivity|].
  split; [cbn; lia|]. split; [intros e; rewrite Hrun; discriminate|].
  split; [exact Hrun|]. vm_compute. reflexivity.
Qed.

(** C2, amended.  A conversion with [multiline] off gives the reader the
    format, the header option and the schema and nothing else: no parse
    mode, so the CSV source reads in its default mode, PERMISSIVE, and a
    record that does not match the five declared columns is not fatal.
    Whatever the records of the genres source, the conversion returns,
    counts every data record and writes one row for each, in order.  The
    row has five cells, one for each declared column: the cell is null
    when the record has no field at that position, when the field is empty
    and when it cannot be read as the declared type, and is what the field
    reads as otherwise; fields past the fifth are dropped. *)
Theorem genres_read_is_permissive spark inp out records w :
  files w !! inp = Some (CsvFile records) ->
  out <> inp ->
  let run := csv_to_parquet Spark.engine spark inp out GENRES_SCHEMA false w in
  exists r rows,
    loads (calls_since w run.2) = [(r, inp)] /\
    r_format r = Some "csv" /\
    r_schema r = Some GENRES_SCHEMA /\
    r_options r = {[ "header" := "true" ]} /\
    r_options r !! "mode" = None /\
    Spark.parse_mode (r_options r) = Spark.Permissive /\
    run.1 = Ok (conversion_result (length (tail records)) out) /\
    length rows = length (tail records) /\
    Forall (fun row : Row => length row = 5%nat) rows /\
    files run.2 !! out = Some (ParquetData [("snappy", rows)]) /\
    parse_ddl GENRES_SCHEMA = Some genres_fields /\
    (forall k fields,
       tail records !! k = Some fields ->
       exists row,
         rows !! k = Some row /\
         forall i name ty,
           genres_fields !! i = Some (name, ty) ->
           row !! i =
           Some (match fields !! i with
                 | None => None
                 | Some field => default None (Spark.convert_cell ty field)
                 end)).
Proof.
  intros Hfile Hne run. subst run.
  rewrite csv_to_parquet_run. cbv zeta. rewrite Hfile.
  change (ddl_check Spark.engine GENRES_SCHEMA) with (Ok tt : outcome unit).
  change (load_check Spark.engine _ inp (Some (CsvFile records)))
    with (Ok tt : outcome unit).
  rewrite (spark_scan_single_line _ _ _ _ _ genres_columns).
  destruct (String.eqb_spec out inp) as [|_]; [done|].
  cbv iota. cbn [fst snd].
  exists (csv_reader spark GENRES_SCHEMA false),
    (map (fun fields => (Spark.convert_record genres_fields fields).1) (tail records)).
  split; [by rewrite calls_since_set_files|].
  split; [reflexivity|]. split; [reflexivity|]. split; [reflexivity|].
  split; [reflexivity|]. split; [reflexivity|].
  rewrite length_map. split; [reflexivity|]. split; [reflexivity|].
  split; [|split; [|split]].
  - apply Forall_map, Forall_forall. intros fields _. cbn beta.
    by rewrite convert_record_length.
  - world_simpl. apply lookup_insert_eq.
  - exact genres_columns.
  - intros k fields Hk.
    exists (Spark.convert_record genres_fields fields).1.
    split; [by rewrite list_lookup_fmap, Hk|].
    intros i name ty Hcol. exact (convert_record_cell _ _ _ _ _ Hcol).
Qed.

(** Witness of C2 as amended: the sample world with the short record. *)
Lemma genres_read_is_permissive_witness :
  let records := [Sample.header;
                  ["1"; "#006699"; "Avant-Garde"; "38"; "Avant-Garde"];
                  ["x"; "y"]] in
  let run := csv_to_parquet Spark.engine Sample.spark Sample.genres_in
               Sample.genres_out GENRES_SCHEMA false Sample.short_record_world in
  files Sample.short_record_world !! Sample.genres_in = Some (CsvFile records) /\
  Sample.genres_out <> Sample.genres_in /\
  exists r rows,
    loads (calls_since Sample.short_record_world run.2) = [(r, Sample.genres_in)] /\
    r_format r = Some "csv" /\
    r_schema r = Some GENRES_SCHEMA /\
    r_options r = {[ "header" := "true" ]} /\
    r_options r !! "mode" = None /\
    Spark.parse_mode (r_options r) = Spark.Permissive /\
    run.1 = Ok (conversion_result (length (tail records)) Sample.genres_out) /\
    length rows = length (tail records) /\
    Forall (fun row : Row => length row = 5%nat) rows /\
    files run.2 !! Sample.genres_out = Some (ParquetData [("snappy", rows)]) /\
    parse_ddl GENRES_SCHEMA = Some genres_fields /\
    (forall k fields,
       tail records !! k = Some fields ->
       exists row,
         rows !! k = Some row /\
         forall i name ty,
           genres_fields !! i = Some (name, ty) ->
           row !! i =
           Some (match fields !! i with
                 | None => None
                 | Some field => default None (Spark.convert_cell ty field)
                 end)).
Proof.
  intros records run.
  assert (Hfile : files Sample.short_record_world !! Sample.genres_in
                  = Some (CsvFile records)) by (vm_compute; reflexivity).
  assert (Hne : Sample.genres_out <> Sample.genres_in) by discriminate.
  split; [exact Hfile|]. split; [exact Hne|].
  exact (genres_read_is_permissive Sample.spark Sample.genres_in Sample.genres_out
           records Sample.short_record_world Hfile Hne).
Defined.

(** C3.  When the access key or the secret key is unset or empty,
    [create_spark_session] raises [ValueError] having done nothing but read
    the two variables: no session exists that did not before, no file is
    touched, no call reaches the runtime.  When both are set and non-empty
    it returns the session, built with these two values. *)
Theorem credentials_checked_before_session (g : Globals) (w : World) :
  let access := environ w !! "AWS_ACCESS_KEY_ID" in
  let secret := environ w !! "AWS_SECRET_ACCESS_KEY" in
  let run := create_spark_session g w in
  ((access = None \/ access = Some Text.empty \/
    secret = None \/ secret = Some Text.empty) ->
   run = (Raise (ValueError credentials_message),
          add_calls [EGetenv "AWS_ACCESS_KEY_ID"; EGetenv "AWS_SECRET_ACCESS_KEY"] w) /\
   session run.2 = session w /\
   files run.2 = files w /\
   calls_since w run.2 =
     [EGetenv "AWS_ACCESS_KEY_ID"; EGetenv "AWS_SECRET_ACCESS_KEY"]) /\
  (forall a s,
     access = Some a -> secret = Some s -> a <> Text.empty -> s <> Text.empty ->
     exists sess b,
       run.1 = Ok sess /\
       session run.2 = Some sess /\
       conf sess !! "spark.hadoop.fs.s3a.access.key" = Some a /\
       conf sess !! "spark.hadoop.fs.s3a.secret.key" = Some s /\
       calls_since w run.2 =
         [EGetenv "AWS_ACCESS_KEY_ID"; EGetenv "AWS_SECRET_ACCESS_KEY";
          EPrint ("Initializing Spark with S3 access to region: " +:+ AWS_REGION g);
          EGetOrCreate b; ESetLogLevel "WARN"]).
Proof.
  intros access secret run. subst run. rewrite create_spark_session_run. cbv zeta.
  fold access secret. split.
  - intros Hmissing.
    assert (Hcond : negb (truthy access) || negb (truthy secret) = true).
    { apply orb_true_iff. rewrite !negb_true_iff, !truthy_false. tauto. }
    rewrite Hcond. cbn [snd]. by rewrite calls_since_add_calls.
  - intros a s Ha Hs Hane Hsne. rewrite Ha, Hs.
    destruct a as [|ca a]; [done|]. destruct s as [|cs s]; [done|].
    cbn [truthy negb orb fst snd env_text default].
    eexists _, _. split; [reflexivity|]. split; [reflexivity|].
    split; [|split].
    + cbn [conf]. destruct (session w); [apply lookup_union_Some_l|]; reflexivity.
    + cbn [conf]. destruct (session w); [apply lookup_union_Some_l|]; reflexivity.
    + apply calls_since_set_session.
Qed.

(** Witness of C3: no credentials at all, an empty secret key, and both
    credentials set. *)
Lemma credentials_checked_before_session_witness :
  let message := ValueError credentials_message in
  let reads := [EGetenv "AWS_ACCESS_KEY_ID"; EGetenv "AWS_SECRET_ACCESS_KEY"] in
  create_spark_session Sample.globals Sample.no_credentials
    = (Raise message, add_calls reads Sample.no_credentials) /\
  create_spark_session Sample.globals Sample.empty_secret
    = (Raise message, add_calls reads Sample.empty_secret) /\
  exists sess b,
    (create_spark_session Sample.globals Sample.world).1 = Ok sess /\
    session (create_spark_session Sample.globals Sample.world).2 = Some sess /\
    conf sess !! "spark.hadoop.fs.s3a.access.key" = Some "AKIAEXAMPLE" /\
    conf sess !! "spark.hadoop.fs.s3a.secret.key" = Some "secret" /\
    calls_since Sample.world (create_spark_session Sample.globals Sample.world).2 =
      [EGetenv "AWS_ACCESS_KEY_ID"; EGetenv "AWS_SECRET_ACCESS_KEY";
       EPrint "Initializing Spark with S3 access to region: ap-south-1";
       EGetOrCreate b; ESetLogLevel "WARN"].
Proof.
  intros message reads. split; [|split].
  - destruct (credentials_checked_before_session Sample.globals Sample.no_credentials)
      as [Hraise _].
    destruct Hraise as [Hrun _]; [left; reflexivity | exact Hrun].
  - destruct (credentials_checked_before_session Sample.globals Sample.empty_secret)
      as [Hraise _].
    destruct Hraise as [Hrun _]; [do 3 right; reflexivity | exact Hrun].
  - destruct (credentials_checked_before_session Sample.globals Sample.world)
      as [_ Hok].
    exact (Hok "AKIAEXAMPLE" "secret" eq_refl eq_refl
             ltac:(discriminate) ltac:(discriminate)).
Defined.

(** Counterexample to C4 as stated: the tracks schema does not declare 38
    columns. *)
Lemma tracks_schema_is_not_38_columns : ddl_columns TRACKS_SCHEMA <> Some 38%nat.
Proof. vm_compute. discriminate. Qed.

(** C4, amended.  The tracks schema declares 39 columns, the genres schema
    5 and the artists schema 25. *)
Theorem schema_column_counts :
  ddl_columns TRACKS_SCHEMA = Some 39%nat /\
  ddl_columns GENRES_SCHEMA = Some 5%nat /\
  ddl_columns ARTISTS_SCHEMA = Some 25%nat.
Proof. repeat split; vm_compute; reflexivity. Qed.

(** C5.  When the schema text is accepted, [csv_to_parquet] loads through
    one reader: format csv, the declared schema, and as options the header
    option alone when [multiline] is off, the header option plus multiLine,
    quote and escape set to the double quote, and mode PERMISSIVE when it is
    on.  Each of the four extra options is there exactly when the flag is
    on. *)
Theorem multiline_flag_sets_reader_options
    (E : Engine) spark inp out ddl ml w :
  ddl_check E ddl = Ok tt ->
  exists r,
    loads (calls_since w (csv_to_parquet E spark inp out ddl ml w).2) = [(r, inp)] /\
    r_format r = Some "csv" /\
    r_schema r = Some ddl /\
    r_options r =
      (if ml then
         {[ "header" := "true"; "multiLine" := "true"; "quote" := Text.dquote;
            "escape" := Text.dquote; "mode" := "PERMISSIVE" ]}
       else {[ "header" := "true" ]}) /\
    (r_options r !! "multiLine" = Some "true" <-> ml = true) /\
    (r_options r !! "quote" = Some Text.dquote <-> ml = true) /\
    (r_options r !! "escape" = Some Text.dquote <-> ml = true) /\
    (r_options r !! "mode" = Some "PERMISSIVE" <-> ml = true) /\
    (ml = false ->
     r_options r !! "multiLine" = None /\ r_options r !! "quote" = None /\
     r_options r !! "escape" = None /\ r_options r !! "mode" = None).
Proof.
  intros Hddl. exists (csv_reader spark ddl ml). split.
  - rewrite csv_to_parquet_run, Hddl. cbv zeta.
    destruct (load_check E _ _ _) as [[]|];
      [destruct (scan E _ _ _) as [rows|]; [destruct (String.eqb out inp)|]|];
      cbn [snd]; by rewrite ?calls_since_set_files, ?calls_since_add_calls.
  - split; [done|]. split; [done|]. split; [done|].
    destruct ml; cbn [csv_reader r_options]; repeat split; intros; done.
Qed.

(** Witness of C5: the genres conversion of the sample world; the genres
    schema is accepted by the CSV source. *)
Lemma multiline_flag_sets_reader_options_witness :
  ddl_check Spark.engine GENRES_SCHEMA = Ok tt /\
  exists r,
    loads (calls_since Sample.world
             (csv_to_parquet Spark.engine Sample.spark Sample.genres_in
                Sample.genres_out GENRES_SCHEMA false Sample.world).2)
      = [(r, Sample.genres_in)] /\
    r_format r = Some "csv" /\
    r_schema r = Some GENRES_SCHEMA /\
    r_options r = {[ "header" := "true" ]} /\
    r_options r !! "multiLine" = None /\
    r_options r !! "quote" = None /\
    r_options r !! "escape" = None /\
    r_options r !! "mode" = None.
Proof.
  assert (Hddl : ddl_check Spark.engine GENRES_SCHEMA = Ok tt) by reflexivity.
  split; [exact Hddl|].
  destruct (multiline_flag_sets_reader_options Spark.engine Sample.spark
              Sample.genres_in Sample.genres_out GENRES_SCHEMA false Sample.world Hddl)
    as (r & Hloads & Hformat & Hschema & Hoptions & _ & _ & _ & _ & Hoff).
  destruct (Hoff eq_refl) as (Hmulti & Hquote & Hescape & Hmode).
  exists r. split; [exact Hloads|]. split; [exact Hformat|]. split; [exact Hschema|].
  split; [exact Hoptions|]. split; [exact Hmulti|]. split; [exact Hquote|].
  split; [exact Hescape | exact Hmode].
Defined.

(** C6.  With the globals of an import, a [convert_all] that returns has
    run [makedirs] and then exactly three conversions, each in the world
    the one before left: tracks with [multiline] on, genres with it off,
    artists with it on.  The dictionary it returns has exactly the keys
    "tracks", "genres" and "artists", each bound to what that conversion
    returned. *)
Theorem convert_all_runs_three_conversions
    (E : Engine) w0 g w1 spark w res w' :
  import_module w0 = (Ok g, w1) ->
  convert_all E g spark w = (Ok res, w') ->
  let uri name := "s3a://" +:+ S3_BUCKET g +:+ "/raw_" +:+ name +:+ ".csv" in
  exists wa wb wc r1 r2 r3,
    makedirs "data/processed" true w = (Ok tt, wa) /\
    csv_to_parquet E spark (uri "tracks") "data/processed/tracks.parquet"
      TRACKS_SCHEMA true wa = (Ok r1, wb) /\
    csv_to_parquet E spark (uri "genres") "data/processed/genres.parquet"
      GENRES_SCHEMA false wb = (Ok r2, wc) /\
    csv_to_parquet E spark (uri "artists") "data/processed/artists.parquet"
      ARTISTS_SCHEMA true wc = (Ok r3, w') /\
    map (fun l => (r_schema l.1, r_options l.1 !! "multiLine", l.2))
      (loads (calls_since w w')) =
      [(Some TRACKS_SCHEMA, Some "true", uri "tracks");
       (Some GENRES_SCHEMA, None, uri "genres");
       (Some ARTISTS_SCHEMA, Some "true", uri "artists")] /\
    map snd (writes (calls_since w w')) =
      ["data/processed/tracks.parquet"; "data/processed/genres.parquet";
       "data/processed/artists.parquet"] /\
    dom res = {[ "tracks"; "genres"; "artists" ]} /\
    res !! "tracks" = Some r1 /\
    res !! "genres" = Some r2 /\
    res !! "artists" = Some r3.
Proof.
  intros Himport Hrun uri.
  apply import_module_globals in Himport as (Hg & _ & _).
  rewrite Hg, convert_all_imported in Hrun.
  apply bind_ok_inv in Hrun as ([] & wa & Hdirs & Hrun).
  apply bind_ok_inv in Hrun as (r1 & wb & Htracks & Hrun).
  apply bind_ok_inv in Hrun as (r2 & wc & Hgenres & Hrun).
  apply bind_ok_inv in Hrun as (r3 & wd & Hartists & Hrun).
  injection Hrun as <- <-.
  exists wa, wb, wc, r1, r2, r3.
  split; [exact Hdirs|]. split; [exact Htracks|].
  split; [exact Hgenres|]. split; [exact Hartists|].
  assert (Hcalls : exists d1 d2 d3,
    calls wd = calls w ++ [EMakedirs "data/processed" true] ++ d1 ++ d2 ++ d3 /\
    loads d1 = [(csv_reader spark TRACKS_SCHEMA true, uri "tracks")] /\
    loads d2 = [(csv_reader spark GENRES_SCHEMA false, uri "genres")] /\
    loads d3 = [(csv_reader spark ARTISTS_SCHEMA true, uri "artists")] /\
    map snd (writes d1) = ["data/processed/tracks.parquet"] /\
    map snd (writes d2) = ["data/processed/genres.parquet"] /\
    map snd (writes d3) = ["data/processed/artists.parquet"]).
  { destruct (makedirs_effect "data/processed" true w) as [d Hd].
    rewrite Hdirs in Hd. cbn [snd] in Hd.
    apply csv_to_parquet_ok_calls in Htracks as (d1 & H1 & Hl1 & Hw1).
    apply csv_to_parquet_ok_calls in Hgenres as (d2 & H2 & Hl2 & Hw2).
    apply csv_to_parquet_ok_calls in Hartists as (d3 & H3 & Hl3 & Hw3).
    exists d1, d2, d3. rewrite H3, H2, H1, Hd. world_simpl.
    rewrite <- !app_assoc, Hl1, Hl2, Hl3, Hw1, Hw2, Hw3. done. }
  destruct Hcalls as (d1 & d2 & d3 & Hcalls & Hl1 & Hl2 & Hl3 & Hw1 & Hw2 & Hw3).
  unfold calls_since. rewrite Hcalls, drop_app_length.
  unfold loads, writes in *. rewrite !flat_map_app, !map_app.
  rewrite Hl1, Hl2, Hl3, Hw1, Hw2, Hw3.
  split; [reflexivity|]. split; [reflexivity|].
  split; [rewrite !dom_insert_L, dom_empty_L; set_solver|].
  repeat split; reflexivity.
Qed.

(** Witness of C6: [convert_all] in the sample world. *)
Lemma convert_all_runs_three_conversions_witness :
  let run := convert_all Spark.engine Sample.globals Sample.spark Sample.world in
  import_module Sample.world = (Ok Sample.globals, (import_module Sample.world).2) /\
  run = (Ok Sample.results, run.2) /\
  map (fun l => (r_schema l.1, r_options l.1 !! "multiLine", l.2))
    (loads (calls_since Sample.world run.2)) =
    [(Some TRACKS_SCHEMA, Some "true", "s3a://musicrec-data/raw_tracks.csv");
     (Some GENRES_SCHEMA, None, "s3a://musicrec-data/raw_genres.csv");
     (Some ARTISTS_SCHEMA, Some "true", "s3a://musicrec-data/raw_artists.csv")] /\
  map snd (writes (calls_since Sample.world run.2)) =
    ["data/processed/tracks.parquet"; "data/processed/genres.parquet";
     "data/processed/artists.parquet"] /\
  dom Sample.results = {[ "tracks"; "genres"; "artists" ]}.
Proof.
  intros run.
  assert (Himport : import_module Sample.world
                    = (Ok Sample.globals, (import_module Sample.world).2))
    by (vm_compute; reflexivity).
  assert (Hrun : run = (Ok Sample.results, run.2)) by (vm_compute; reflexivity).
  destruct (convert_all_runs_three_conversions Spark.engine _ _ _ _ _ _ _ Himport Hrun)
    as (wa & wb & wc & r1 & r2 & r3 & _ & _ & _ & _ & Hloads & Hwrites & Hdom & _).
  split; [exact Himport|]. split; [exact Hrun|].
  split; [exact Hloads|]. split; [exact Hwrites | exact Hdom].
Defined.

(** C7.  In every run of [csv_to_parquet], a write is issued only after
    the count of the same data frame.  So when the checks of [schema] and
    [load] pass and materializing the read fails, the call raises that
    failure at the count: no write is issued and every file, the
    destination among them, is as it was. *)
Theorem count_precedes_write (E : Engine) spark inp out ddl ml w :
  let run := csv_to_parquet E spark inp out ddl ml w in
  (forall i wr p,
     calls_since w run.2 !! i = Some (EWriteParquet wr p) ->
     exists j, (j < i)%nat /\ calls_since w run.2 !! j = Some (ECount (w_df wr))) /\
  (forall e r,
     loads (calls_since w run.2) = [(r, inp)] ->
     load_check E r inp (files w !! inp) = Ok tt ->
     scan E r inp (files w !! inp) = Raise e ->
     run.1 = Raise e /\
     counts (calls_since w run.2) = [{| df_reader := r; df_path := inp |}] /\
     writes (calls_since w run.2) = [] /\
     files run.2 = files w /\
     files run.2 !! out = files w !! out).
Proof.
  intros run. subst run. rewrite csv_to_parquet_run. cbv zeta. split.
  - intros i wr p.
    destruct (ddl_check E ddl) as [[]|];
      [destruct (load_check E _ _ _) as [[]|];
        [destruct (scan E _ _ _) as [rows|]; [destruct (String.eqb out inp)|]|]|];
      cbn [snd]; rewrite ?calls_since_set_files, ?calls_since_add_calls;
      unfold banner; cbn [app]; intros Hi;
      do 10 (destruct i as [|i];
             [cbn in Hi;
              first [discriminate Hi
                    | injection Hi as <- <-; exists 5%nat; split; [lia|reflexivity]]|]);
      cbn in Hi; discriminate Hi.
  - intros e r.
    destruct (ddl_check E ddl) as [[]|];
      [destruct (load_check E _ _ _) as [[]|] eqn:Hload;
        [destruct (scan E _ _ _) as [rows|] eqn:Hscan;
          [destruct (String.eqb out inp)|]|]|];
      cbn [fst snd]; rewrite ?calls_since_set_files, ?calls_since_add_calls;
      intros Hloads; try discriminate Hloads;
      injection Hloads as <-; intros Hpass Hfail; try congruence.
    rewrite Hscan in Hfail. injection Hfail as <-. done.
Qed.

(** Witness of C7: the genres conversion where the source cannot be read. *)
Lemma count_precedes_write_witness :
  let run := csv_to_parquet Spark.engine Sample.spark Sample.genres_in
               Sample.genres_out GENRES_SCHEMA false Sample.unreadable_world in
  let r := csv_reader Sample.spark GENRES_SCHEMA false in
  loads (calls_since Sample.unreadable_world run.2) = [(r, Sample.genres_in)] /\
  load_check Spark.engine r Sample.genres_in
    (files Sample.unreadable_world !! Sample.genres_in) = Ok tt /\
  scan Spark.engine r Sample.genres_in
    (files Sample.unreadable_world !! Sample.genres_in)
    = Raise (RuntimeFailure "Not a delimited-text source") /\
  run.1 = Raise (RuntimeFailure "Not a delimited-text source") /\
  writes (calls_since Sample.unreadable_world run.2) = [] /\
  files run.2 !! Sample.genres_out = None.
Proof.
  intros run r.
  assert (Hloads : loads (calls_since Sample.unreadable_world run.2)
                   = [(r, Sample.genres_in)]) by (vm_compute; reflexivity).
  assert (Hscan : scan Spark.engine r Sample.genres_in
                    (files Sample.unreadable_world !! Sample.genres_in)
                  = Raise (RuntimeFailure "Not a delimited-text source"))
    by (vm_compute; reflexivity).
  destruct (count_precedes_write Spark.engine Sample.spark Sample.genres_in
              Sample.genres_out GENRES_SCHEMA false Sample.unreadable_world)
    as [_ Hfail].
  assert (Hload : load_check Spark.engine r Sample.genres_in
                    (files Sample.unreadable_world !! Sample.genres_in) = Ok tt)
    by (vm_compute; reflexivity).
  destruct (Hfail _ _ Hloads Hload Hscan) as (Hrun & _ & Hwrites & _ & Hout).
  split; [exact Hloads|]. split; [exact Hload|]. split; [exact Hscan|].
  split; [exact Hrun|].
  split; [exact Hwrites|]. exact (eq_trans Hout eq_refl).
Defined.

(** C8.  Every write a conversion issues is to its destination, in mode
    overwrite, with compression snappy.  A conversion that returns leaves at
    the destination one part, holding the rows it read and nothing of what
    was there; run again, it returns the same and leaves the same files.
    Under the globals of an import, [convert_all] writes only to the three
    paths under data/processed/, and a [convert_all] that returns has
    issued exactly three writes, one to each of the three paths in the
    order tracks, genres, artists, each in mode overwrite with compression
    snappy, and each of the three paths then holds one part, in codec
    snappy.  The session [create_spark_session] returns has snappy as its
    default parquet codec, and it does return one whenever both credentials
    are set and not empty. *)
Theorem writes_overwrite_with_snappy (E : Engine) w0 g w1 :
  import_module w0 = (Ok g, w1) ->
  (forall spark inp out ddl ml w wr p,
     In (wr, p) (writes (calls_since w (csv_to_parquet E spark inp out ddl ml w).2)) ->
     p = out /\
     w_mode wr = Some "overwrite" /\
     save_mode (w_mode wr) = Some Overwrite /\
     w_options wr !! "compression" = Some "snappy" /\
     write_codec wr = "snappy") /\
  (forall spark inp out ddl ml w res w',
     csv_to_parquet E spark inp out ddl ml w = (Ok res, w') ->
     (exists rows,
        files w' !! out = Some (ParquetData [("snappy", rows)]) /\
        res !! "count" = Some (VInt (Z.of_nat (length rows)))) /\
     (exists w'',
        csv_to_parquet E spark inp out ddl ml w' = (Ok res, w'') /\
        files w'' = files w')) /\
  (forall spark w wr p,
     In (wr, p) (writes (calls_since w (convert_all E g spark w).2)) ->
     In p ["data/processed/tracks.parquet"; "data/processed/genres.parquet";
           "data/processed/artists.parquet"] /\
     Text.starts_with "data/processed/" p = true /\
     w_mode wr = Some "overwrite" /\
     w_options wr !! "compression" = Some "snappy") /\
  (forall w sess w',
     create_spark_session g w = (Ok sess, w') ->
     conf sess !! "spark.sql.parquet.compression.codec" = Some "snappy") /\
  (forall spark w res w',
     convert_all E g spark w = (Ok res, w') ->
     map (fun x => (x.2, w_mode x.1, save_mode (w_mode x.1),
                    w_options x.1 !! "compression", write_codec x.1))
       (writes (calls_since w w')) =
       [("data/processed/tracks.parquet", Some "overwrite", Some Overwrite,
         Some "snappy", "snappy");
        ("data/processed/genres.parquet", Some "overwrite", Some Overwrite,
         Some "snappy", "snappy");
        ("data/processed/artists.parquet", Some "overwrite", Some Overwrite,
         Some "snappy", "snappy")] /\
     forall p,
       In p ["data/processed/tracks.parquet"; "data/processed/genres.parquet";
             "data/processed/artists.parquet"] ->
       exists rows, files w' !! p = Some (ParquetData [("snappy", rows)])) /\
  (forall w a s,
     environ w !! "AWS_ACCESS_KEY_ID" = Some a ->
     environ w !! "AWS_SECRET_ACCESS_KEY" = Some s ->
     a <> Text.empty -> s <> Text.empty ->
     exists sess w',
       create_spark_session g w = (Ok sess, w') /\
       session w' = Some sess /\
       conf sess !! "spark.sql.parquet.compression.codec" = Some "snappy").
Proof.
  intros Himport. apply import_module_globals in Himport as (Hg & _ & _).
  split; [|split; [|split; [|split; [|split]]]].
  - intros spark inp out ddl ml w wr p Hin. apply writes_In in Hin.
    pose proof (emits_since _ _ w (emits_csv_to_parquet E spark inp out ddl ml)) as Hall.
    rewrite Forall_forall in Hall.
    apply list_elem_of_In, Hall in Hin as [-> ->]. done.
  - intros spark inp out ddl ml w res w' Hrun. split.
    + apply csv_to_parquet_ok_inv in Hrun as (rows & _ & _ & _ & _ & -> & ->).
      exists rows. split; [world_simpl; apply lookup_insert_eq | reflexivity].
    + by eapply csv_to_parquet_again.
  - intros spark w wr p Hin. apply writes_In in Hin. revert Hin. rewrite Hg.
    pose proof (emits_since _ _ w
                  (emits_convert_all E (S3_BUCKET g) (AWS_REGION g) spark)) as Hall.
    rewrite Forall_forall in Hall. intros Hin. apply list_elem_of_In, Hall in Hin.
    destruct Hin as [[=]|[[-> ->]|[[-> ->]|[-> ->]]]]; cbn; tauto.
  - intros w sess w'. rewrite create_spark_session_run. cbv zeta.
    destruct (negb _ || negb _); [discriminate|]. intros [= <- _]. cbn [conf].
    destruct (session w); [apply lookup_union_Some_l|]; reflexivity.
  - intros spark w res w'. rewrite Hg. intros Hrun. split.
    + by rewrite (convert_all_ok_writes _ _ _ _ _ _ _ Hrun).
    + apply convert_all_ok_converted in Hrun
        as ((rows1 & _ & _ & Hout1 & _) & (rows2 & _ & _ & Hout2 & _) &
            (rows3 & _ & _ & Hout3 & _)).
      intros p [<-|[<-|[<-|[]]]]; eauto.
  - intros w a s Ha Hs Hane Hsne.
    rewrite (create_spark_session_ok_intro g w a s Ha Hs Hane Hsne).
    eexists _, _. split; [reflexivity|]. split; [reflexivity|].
    cbn [conf]. by apply session_conf_option.
Qed.

(** Witness of C8: in the sample world, the import, the genres conversion
    and its second run, the three writes of [convert_all] and the session
    of the provisioner. *)
Lemma writes_overwrite_with_snappy_witness :
  let run := csv_to_parquet Spark.engine Sample.spark Sample.genres_in
               Sample.genres_out GENRES_SCHEMA false Sample.world in
  let all := convert_all Spark.engine Sample.globals Sample.spark Sample.world in
  import_module Sample.world = (Ok Sample.globals, (import_module Sample.world).2) /\
  run = (Ok (conversion_result 2 Sample.genres_out), run.2) /\
  (exists rows,
     files run.2 !! Sample.genres_out = Some (ParquetData [("snappy", rows)]) /\
     conversion_result 2 Sample.genres_out !! "count"
       = Some (VInt (Z.of_nat (length rows)))) /\
  (exists w'',
     csv_to_parquet Spark.engine Sample.spark Sample.genres_in Sample.genres_out
       GENRES_SCHEMA false run.2 = (Ok (conversion_result 2 Sample.genres_out), w'') /\
     files w'' = files run.2) /\
  all = (Ok Sample.results, all.2) /\
  map (fun x => (x.2, w_mode x.1, save_mode (w_mode x.1),
                 w_options x.1 !! "compression", write_codec x.1))
    (writes (calls_since Sample.world all.2)) =
    [("data/processed/tracks.parquet", Some "overwrite", Some Overwrite,
      Some "snappy", "snappy");
     ("data/processed/genres.parquet", Some "overwrite", Some Overwrite,
      Some "snappy", "snappy");
     ("data/processed/artists.parquet", Some "overwrite", Some Overwrite,
      Some "snappy", "snappy")] /\
  (exists rows,
     files all.2 !! "data/processed/genres.parquet"
       = Some (ParquetData [("snappy", rows)])) /\
  exists sess w',
    create_spark_session Sample.globals Sample.world = (Ok sess, w') /\
    session w' = Some sess /\
    conf sess !! "spark.sql.parquet.compression.codec" = Some "snappy".
Proof.
  intros run all.
  assert (Himport : import_module Sample.world
                    = (Ok Sample.globals, (import_module Sample.world).2))
    by (vm_compute; reflexivity).
  assert (Hrun : run = (Ok (conversion_result 2 Sample.genres_out), run.2))
    by (vm_compute; reflexivity).
  assert (Hall : all = (Ok Sample.results, all.2)) by (vm_compute; reflexivity).
  assert (Ha : environ Sample.world !! "AWS_ACCESS_KEY_ID" = Some "AKIAEXAMPLE")
    by reflexivity.
  assert (Hs : environ Sample.world !! "AWS_SECRET_ACCESS_KEY" = Some "secret")
    by reflexivity.
  destruct (writes_overwrite_with_snappy Spark.engine _ _ _ Himport)
    as (_ & Hreplace & _ & _ & Hthree & Hsession).
  destruct (Hreplace Sample.spark Sample.genres_in Sample.genres_out GENRES_SCHEMA
              false Sample.world _ _ Hrun) as [Hone Hagain].
  destruct (Hthree Sample.spark Sample.world _ _ Hall) as [Hwrites Hparts].
  split; [exact Himport|]. split; [exact Hrun|]. split; [exact Hone|].
  split; [exact Hagain|]. split; [exact Hall|]. split; [exact Hwrites|].
  split; [exact (Hparts "data/processed/genres.parquet" (or_intror (or_introl eq_refl)))|].
  exact (Hsession Sample.world "AKIAEXAMPLE" "secret" Ha Hs
           ltac:(discriminate) ltac:(discriminate)).
Defined.

(** C9.  With the globals of an import, once the tracks conversion has
    returned: if the genres conversion raises, [convert_all] raises the
    same error and returns no dictionary, and the file store is the one the
    tracks conversion left, its output in place; if the genres conversion
    returns and the artists conversion raises, [convert_all] raises that
    error, and the file store is the one the genres conversion left, the
    tracks and genres outputs in place. *)
Theorem later_failure_keeps_earlier_outputs
    (E : Engine) w0 g w1 spark w wa r1 wb :
  let uri name := "s3a://" +:+ S3_BUCKET g +:+ "/raw_" +:+ name +:+ ".csv" in
  import_module w0 = (Ok g, w1) ->
  makedirs "data/processed" true w = (Ok tt, wa) ->
  csv_to_parquet E spark (uri "tracks") "data/processed/tracks.parquet"
    TRACKS_SCHEMA true wa = (Ok r1, wb) ->
  let genres :=
    csv_to_parquet E spark (uri "genres") "data/processed/genres.parquet"
      GENRES_SCHEMA false wb in
  let artists :=
    csv_to_parquet E spark (uri "artists") "data/processed/artists.parquet"
      ARTISTS_SCHEMA true genres.2 in
  (exists rows1,
     files wb !! "data/processed/tracks.parquet"
       = Some (ParquetData [("snappy", rows1)]) /\
     r1 !! "count" = Some (VInt (Z.of_nat (length rows1)))) /\
  (forall e,
     genres.1 = Raise e ->
     convert_all E g spark w = (Raise e, genres.2) /\
     files genres.2 = files wb) /\
  (forall r2 e,
     genres.1 = Ok r2 ->
     artists.1 = Raise e ->
     convert_all E g spark w = (Raise e, artists.2) /\
     files artists.2 = files genres.2 /\
     files artists.2 !! "data/processed/tracks.parquet"
       = files wb !! "data/processed/tracks.parquet" /\
     exists rows2,
       files artists.2 !! "data/processed/genres.parquet"
         = Some (ParquetData [("snappy", rows2)]) /\
       r2 !! "count" = Some (VInt (Z.of_nat (length rows2)))).
Proof.
  intros uri Himport Hdirs Htracks genres artists.
  apply import_module_globals in Himport as (Hg & _ & _).
  rewrite Hg, convert_all_imported.
  rewrite (bind_ok_run _ _ _ _ _ Hdirs), (bind_ok_run _ _ _ _ _ Htracks).
  fold (uri "genres") (uri "artists").
  split; [|split].
  - apply csv_to_parquet_ok_inv in Htracks as (rows & _ & _ & _ & _ & -> & ->).
    exists rows. split; [world_simpl; apply lookup_insert_eq | reflexivity].
  - intros e Hfail.
    destruct genres as [o wc] eqn:Hgenres. cbn [fst snd] in *. subst o.
    subst genres. rewrite (bind_raise_run _ _ _ _ _ Hgenres).
    split; [reflexivity|]. by apply csv_to_parquet_raise_files in Hgenres.
  - intros r2 e Hok Hfail.
    destruct genres as [o wc] eqn:Hgenres. cbn [fst snd] in *. subst o.
    destruct artists as [o wd] eqn:Hartists. cbn [fst snd] in *. subst o.
    subst genres artists.
    rewrite (bind_ok_run _ _ _ _ _ Hgenres), (bind_raise_run _ _ _ _ _ Hartists).
    split; [reflexivity|].
    pose proof (csv_to_parquet_raise_files _ _ _ _ _ _ _ _ _ Hartists) as Hsame.
    split; [exact Hsame|]. rewrite Hsame.
    apply csv_to_parquet_ok_inv in Hgenres as (rows & _ & _ & _ & _ & -> & ->).
    world_simpl. split; [by rewrite lookup_insert_ne|].
    exists rows. split; [apply lookup_insert_eq | reflexivity].
Qed.

(** Witness of C9: the genres source cannot be read after the tracks
    conversion returned; and the artists source cannot be read after the
    tracks and genres conversions returned. *)
Lemma later_failure_keeps_earlier_outputs_witness :
  let e := RuntimeFailure "Not a delimited-text source" in
  let tracks_at w :=
    csv_to_parquet Spark.engine Sample.spark "s3a://musicrec-data/raw_tracks.csv"
      "data/processed/tracks.parquet" TRACKS_SCHEMA true
      (makedirs "data/processed" true w).2 in
  let genres_at w :=
    csv_to_parquet Spark.engine Sample.spark "s3a://musicrec-data/raw_genres.csv"
      "data/processed/genres.parquet" GENRES_SCHEMA false (tracks_at w).2 in
  let artists_at w :=
    csv_to_parquet Spark.engine Sample.spark "s3a://musicrec-data/raw_artists.csv"
      "data/processed/artists.parquet" ARTISTS_SCHEMA true (genres_at w).2 in
  import_module Sample.world = (Ok Sample.globals, (import_module Sample.world).2) /\
  (let w := Sample.unreadable_world in
   makedirs "data/processed" true w = (Ok tt, (makedirs "data/processed" true w).2) /\
   tracks_at w
     = (Ok (conversion_result 0 "data/processed/tracks.parquet"), (tracks_at w).2) /\
   (genres_at w).1 = Raise e /\
   convert_all Spark.engine Sample.globals Sample.spark w = (Raise e, (genres_at w).2) /\
   files (genres_at w).2 = files (tracks_at w).2 /\
   files (genres_at w).2 !! "data/processed/tracks.parquet"
     = Some (ParquetData [("snappy", [])])) /\
  (let w := Sample.unreadable_artists_world in
   makedirs "data/processed" true w = (Ok tt, (makedirs "data/processed" true w).2) /\
   tracks_at w
     = (Ok (conversion_result 0 "data/processed/tracks.parquet"), (tracks_at w).2) /\
   (genres_at w).1 = Ok (conversion_result 2 "data/processed/genres.parquet") /\
   (artists_at w).1 = Raise e /\
   convert_all Spark.engine Sample.globals Sample.spark w = (Raise e, (artists_at w).2) /\
   files (artists_at w).2 = files (genres_at w).2 /\
   files (artists_at w).2 !! "data/processed/tracks.parquet"
     = files (tracks_at w).2 !! "data/processed/tracks.parquet" /\
   exists rows2,
     files (artists_at w).2 !! "data/processed/genres.parquet"
       = Some (ParquetData [("snappy", rows2)]) /\
     conversion_result 2 "data/processed/genres.parquet" !! "count"
       = Some (VInt (Z.of_nat (length rows2)))).
Proof.
  intros e tracks_at genres_at artists_at.
  assert (Himport : import_module Sample.world
                    = (Ok Sample.globals, (import_module Sample.world).2))
    by (vm_compute; reflexivity).
  split; [exact Himport|]. split.
  - intros w.
    assert (Hdirs : makedirs "data/processed" true w
                    = (Ok tt, (makedirs "data/processed" true w).2))
      by (vm_compute; reflexivity).
    assert (Htracks : tracks_at w
                      = (Ok (conversion_result 0 "data/processed/tracks.parquet"),
                         (tracks_at w).2))
      by (vm_compute; reflexivity).
    assert (Hgenres : (genres_at w).1 = Raise e) by (vm_compute; reflexivity).
    destruct (later_failure_keeps_earlier_outputs Spark.engine _ _ _ Sample.spark
                w _ _ _ Himport Hdirs Htracks)
      as (_ & Hfail & _).
    destruct (Hfail e Hgenres) as [Hrun Hfiles].
    split; [exact Hdirs|]. split; [exact Htracks|]. split; [exact Hgenres|].
    split; [exact Hrun|]. split; [exact Hfiles|].
    vm_compute. reflexivity.
  - intros w.
    assert (Hdirs : makedirs "data/processed" true w
                    = (Ok tt, (makedirs "data/processed" true w).2))
      by (vm_compute; reflexivity).
    assert (Htracks : tracks_at w
                      = (Ok (conversion_result 0 "data/processed/tracks.parquet"),
                         (tracks_at w).2))
      by (vm_compute; reflexivity).
    assert (Hgenres : (genres_at w).1
                      = Ok (conversion_result 2 "data/processed/genres.parquet"))
      by (vm_compute; reflexivity).
    assert (Hartists : (artists_at w).1 = Raise e) by (vm_compute; reflexivity).
    destruct (later_failure_keeps_earlier_outputs Spark.engine _ _ _ Sample.spark
                w _ _ _ Himport Hdirs Htracks)
      as (_ & _ & Hfail).
    destruct (Hfail _ e Hgenres Hartists) as (Hrun & Hfiles & Htracks_out & Hgenres_out).
    split; [exact Hdirs|]. split; [exact Htracks|]. split; [exact Hgenres|].
    split; [exact Hartists|]. split; [exact Hrun|]. split; [exact Hfiles|].
    split; [exact Htracks_out | exact Hgenres_out].
Defined.

(** C10.  The import reads S3_BUCKET and AWS_REGION once each, with the
    defaults "musicrec-data" and "ap-south-1", and fixes the three source
    URIs from the bucket.  After it, [create_spark_session] reads only the
    two credentials, on every call, takes them from the environment of that
    call and builds the endpoint from the region of the import: whenever
    both credentials are set and not empty it returns a session whose
    endpoint is that of the import's region, whatever AWS_REGION and
    S3_BUCKET are by then; it behaves the same in any environment with the
    same two credentials.  [convert_all] reads no variable, loads only the
    three URIs of the import, and behaves the same in any environment. *)
Theorem bucket_and_region_fixed_at_import (E : Engine) (w0 : World) :
  let env0 := delete "CONTAINER_ID" (environ w0) ∪ dotenv w0 in
  let bucket := default "musicrec-data" (env0 !! "S3_BUCKET") in
  let region := default "ap-south-1" (env0 !! "AWS_REGION") in
  exists g w1,
    import_module w0 = (Ok g, w1) /\
    getenvs (calls_since w0 w1) = ["S3_BUCKET"; "AWS_REGION"] /\
    S3_BUCKET g = bucket /\
    AWS_REGION g = region /\
    S3_INPUT g =
      {[ "tracks" := "s3a://" +:+ bucket +:+ "/raw_tracks.csv";
         "genres" := "s3a://" +:+ bucket +:+ "/raw_genres.csv";
         "artists" := "s3a://" +:+ bucket +:+ "/raw_artists.csv" ]} /\
    (forall w,
       getenvs (calls_since w (create_spark_session g w).2) =
         ["AWS_ACCESS_KEY_ID"; "AWS_SECRET_ACCESS_KEY"]) /\
    (forall w sess w',
       create_spark_session g w = (Ok sess, w') ->
       conf sess !! "spark.hadoop.fs.s3a.endpoint"
         = Some ("s3." +:+ region +:+ ".amazonaws.com") /\
       conf sess !! "spark.hadoop.fs.s3a.access.key"
         = environ w !! "AWS_ACCESS_KEY_ID" /\
       conf sess !! "spark.hadoop.fs.s3a.secret.key"
         = environ w !! "AWS_SECRET_ACCESS_KEY") /\
    (forall w env,
       env !! "AWS_ACCESS_KEY_ID" = environ w !! "AWS_ACCESS_KEY_ID" ->
       env !! "AWS_SECRET_ACCESS_KEY" = environ w !! "AWS_SECRET_ACCESS_KEY" ->
       create_spark_session g (set_environ env w) =
         ((create_spark_session g w).1, set_environ env (create_spark_session g w).2)) /\
    (forall spark w env,
       convert_all E g spark (set_environ env w) =
         ((convert_all E g spark w).1, set_environ env (convert_all E g spark w).2)) /\
    (forall spark w, getenvs (calls_since w (convert_all E g spark w).2) = []) /\
    (forall spark w r p,
       In (r, p) (loads (calls_since w (convert_all E g spark w).2)) ->
       In p ["s3a://" +:+ bucket +:+ "/raw_tracks.csv";
             "s3a://" +:+ bucket +:+ "/raw_genres.csv";
             "s3a://" +:+ bucket +:+ "/raw_artists.csv"]) /\
    (forall w a s,
       environ w !! "AWS_ACCESS_KEY_ID" = Some a ->
       environ w !! "AWS_SECRET_ACCESS_KEY" = Some s ->
       a <> Text.empty -> s <> Text.empty ->
       exists sess w',
         create_spark_session g w = (Ok sess, w') /\
         session w' = Some sess /\
         conf sess !! "spark.hadoop.fs.s3a.endpoint"
           = Some ("s3." +:+ region +:+ ".amazonaws.com") /\
         conf sess !! "spark.hadoop.fs.s3a.access.key" = Some a /\
         conf sess !! "spark.hadoop.fs.s3a.secret.key" = Some s) /\
    (forall spark w res w',
       convert_all E g spark w = (Ok res, w') ->
       map snd (loads (calls_since w w')) =
         ["s3a://" +:+ bucket +:+ "/raw_tracks.csv";
          "s3a://" +:+ bucket +:+ "/raw_genres.csv";
          "s3a://" +:+ bucket +:+ "/raw_artists.csv"]).
Proof.
  intros env0 bucket region.
  exists (globals_of bucket region), (import_module w0).2.
  split; [by rewrite import_module_run|].
  split; [rewrite import_module_run; cbn [snd];
          by rewrite calls_since_set_environ|].
  split; [done|]. split; [done|]. split; [done|].
  split; [|split; [|split; [|split; [|split; [|split; [|split]]]]]].
  - intros w. rewrite create_spark_session_run. cbv zeta.
    destruct (negb _ || negb _); cbn [snd];
      by rewrite ?calls_since_set_session, ?calls_since_add_calls.
  - intros w sess w'. rewrite create_spark_session_run. cbv zeta.
    destruct (environ w !! "AWS_ACCESS_KEY_ID") as [[|ca a]|]; [done| |done].
    destruct (environ w !! "AWS_SECRET_ACCESS_KEY") as [[|cs s]|]; [done| |done].
    cbn [truthy negb orb env_text default]. intros [= <- _]. cbn [conf].
    destruct (session w); repeat split;
      first [apply lookup_union_Some_l; reflexivity | reflexivity].
  - intros w env Ha Hs. rewrite !create_spark_session_run. cbv zeta. world_simpl.
    rewrite Ha, Hs. by destruct (negb _ || negb _).
  - intros spark w env. apply env_blind_convert_all.
  - intros spark w. apply getenvs_nil.
    eapply Forall_impl; [apply emits_since, emits_convert_all|].
    intros e He k ->. by destruct He as [[=]|[[]|[[]|[]]]].
  - intros spark w r p Hin. apply loads_In, list_elem_of_In in Hin.
    pose proof (emits_since _ _ w (emits_convert_all E bucket region spark)) as Hall.
    rewrite Forall_forall in Hall. apply Hall in Hin.
    destruct Hin as [[=]|[[-> ->]|[[-> ->]|[-> ->]]]]; cbn; tauto.
  - intros w a s Ha Hs Hane Hsne.
    rewrite (create_spark_session_ok_intro _ w a s Ha Hs Hane Hsne).
    eexists _, _. split; [reflexivity|]. split; [reflexivity|].
    cbn [conf AWS_REGION globals_of].
    repeat split; by apply session_conf_option.
  - intros spark w res w' Hrun.
    by rewrite (convert_all_ok_loads _ _ _ _ _ _ _ Hrun).
Qed.

(** Witness of C10: the import of the sample world, where neither variable
    is set, and the session and the conversions after it in a world where
    both have been set since. *)
Lemma bucket_and_region_fixed_at_import_witness :
  let g := Sample.globals in
  let moved :=
    set_environ (<["AWS_REGION" := "eu-west-1"]>
                   (<["S3_BUCKET" := "elsewhere"]> (environ Sample.world)))
      Sample.world in
  let all := convert_all Spark.engine g Sample.spark moved in
  import_module Sample.world = (Ok g, (import_module Sample.world).2) /\
  getenvs (calls_since Sample.world (import_module Sample.world).2)
    = ["S3_BUCKET"; "AWS_REGION"] /\
  S3_BUCKET g = "musicrec-data" /\
  AWS_REGION g = "ap-south-1" /\
  S3_INPUT g !! "genres" = Some "s3a://musicrec-data/raw_genres.csv" /\
  getenvs (calls_since Sample.world (create_spark_session g Sample.world).2) =
    ["AWS_ACCESS_KEY_ID"; "AWS_SECRET_ACCESS_KEY"] /\
  getenvs (calls_since Sample.world
             (convert_all Spark.engine g Sample.spark Sample.world).2) = [] /\
  convert_all Spark.engine g Sample.spark
    (set_environ {[ "S3_BUCKET" := "elsewhere" ]} Sample.world) =
    ((convert_all Spark.engine g Sample.spark Sample.world).1,
     set_environ {[ "S3_BUCKET" := "elsewhere" ]}
       (convert_all Spark.engine g Sample.spark Sample.world).2) /\
  environ moved !! "AWS_REGION" = Some "eu-west-1" /\
  environ moved !! "S3_BUCKET" = Some "elsewhere" /\
  (exists sess w',
     create_spark_session g moved = (Ok sess, w') /\
     session w' = Some sess /\
     conf sess !! "spark.hadoop.fs.s3a.endpoint" = Some "s3.ap-south-1.amazonaws.com" /\
     conf sess !! "spark.hadoop.fs.s3a.access.key" = Some "AKIAEXAMPLE" /\
     conf sess !! "spark.hadoop.fs.s3a.secret.key" = Some "secret") /\
  all = (Ok Sample.results, all.2) /\
  map snd (loads (calls_since moved all.2)) =
    ["s3a://musicrec-data/raw_tracks.csv"; "s3a://musicrec-data/raw_genres.csv";
     "s3a://musicrec-data/raw_artists.csv"].
Proof.
  intros g moved all.
  assert (Hsample : import_module Sample.world = (Ok g, (import_module Sample.world).2))
    by (vm_compute; reflexivity).
  assert (Hall : all = (Ok Sample.results, all.2)) by (vm_compute; reflexivity).
  destruct (bucket_and_region_fixed_at_import Spark.engine Sample.world)
    as (g' & w1 & Himport & Hreads & Hbucket & Hregion & Hinput & Hcred & _ & _ &
        Hblind & Hnone & _ & Hsession & Hloads).
  rewrite Hsample in Himport. injection Himport as <- <-.
  split; [exact Hsample|]. split; [exact Hreads|].
  split; [exact Hbucket|]. split; [exact Hregion|].
  split; [exact (eq_trans (f_equal (fun d => d !! "genres") Hinput) eq_refl)|].
  split; [exact (Hcred Sample.world)|].
  split; [exact (Hnone Sample.spark Sample.world)|].
  split; [exact (Hblind Sample.spark Sample.world {[ "S3_BUCKET" := "elsewhere" ]})|].
  split; [reflexivity|]. split; [reflexivity|].
  split; [exact (Hsession moved "AKIAEXAMPLE" "secret" eq_refl eq_refl
                   ltac:(discriminate) ltac:(discriminate))|].
  split; [exact Hall|].
  exact (Hloads Sample.spark moved _ _ Hall).
Defined.

(** * Further properties of the code *)

(** ** One conversion *)


(** ** The orchestration *)

(** X2.  When [makedirs] raises, [convert_all] raises the same error with
    nothing else done: no source is loaded, no file is touched. *)
Theorem blocked_directory_stops_everything
    (E : Engine) g spark w e wa :
  makedirs "data/processed" true w = (Raise e, wa) ->
  convert_all E g spark w = (Raise e, wa) /\
  files wa = files w /\
  calls_since w wa = [EMakedirs "data/processed" true].
Proof.
  intros Hdirs. split.
  - unfold convert_all. by rewrite (bind_raise_run _ _ _ _ _ Hdirs).
  - destruct (makedirs_effect "data/processed" true w) as [d Hd].
    rewrite Hdirs in Hd. cbn [snd] in Hd. subst wa. split; [done|].
    apply calls_since_add_calls.
Qed.

(** X3.  With the globals of an import, when the tracks conversion raises,
    [convert_all] raises the same error and returns no dictionary.  The
    genres and artists conversions never start: the only source loaded is
    the tracks URI, the only path a write can have been issued to is the
    tracks destination, and every other path holds what it held.  When the
    failure came before the write was issued, every file is as it was. *)
Theorem first_failure_stops_the_rest
    (E : Engine) w0 g w1 spark w wa e wb :
  let uri name := "s3a://" +:+ S3_BUCKET g +:+ "/raw_" +:+ name +:+ ".csv" in
  import_module w0 = (Ok g, w1) ->
  makedirs "data/processed" true w = (Ok tt, wa) ->
  csv_to_parquet E spark (uri "tracks") "data/processed/tracks.parquet"
    TRACKS_SCHEMA true wa = (Raise e, wb) ->
  convert_all E g spark w = (Raise e, wb) /\
  (forall r p, In (r, p) (loads (calls_since w wb)) -> p = uri "tracks") /\
  (forall wr p,
     In (wr, p) (writes (calls_since w wb)) -> p = "data/processed/tracks.parquet") /\
  (forall p, p <> "data/processed/tracks.parquet" -> files wb !! p = files w !! p) /\
  (writes (calls_since w wb) = [] -> files wb = files w).
Proof.
  intros uri Himport Hdirs Htracks.
  apply import_module_globals in Himport as (Hg & _ & _).
  destruct (makedirs_effect "data/processed" true w) as [d Hd].
  rewrite Hdirs in Hd. cbn [snd] in Hd.
  destruct (emits_csv_to_parquet E spark (uri "tracks")
              "data/processed/tracks.parquet" TRACKS_SCHEMA true wa)
    as (es & Hcalls & Hall).
  rewrite Htracks in Hcalls. cbn [snd] in Hcalls.
  assert (Hsince : calls_since w wb = EMakedirs "data/processed" true :: es).
  { unfold calls_since. rewrite Hcalls, Hd. world_simpl.
    by rewrite <- app_assoc, drop_app_length. }
  rewrite Forall_forall in Hall.
  split; [|split; [|split; [|split]]].
  - rewrite Hg, convert_all_imported.
    by rewrite (bind_ok_run _ _ _ _ _ Hdirs), (bind_raise_run _ _ _ _ _ Htracks).
  - intros r p Hin. apply loads_In in Hin. rewrite Hsince in Hin.
    destruct Hin as [[=]|Hin]. apply list_elem_of_In, Hall in Hin. by destruct Hin.
  - intros wr p Hin. apply writes_In in Hin. rewrite Hsince in Hin.
    destruct Hin as [[=]|Hin]. apply list_elem_of_In, Hall in Hin. by destruct Hin.
  - intros p Hp.
    pose proof (csv_to_parquet_frame E spark (uri "tracks")
                  "data/processed/tracks.parquet" TRACKS_SCHEMA true wa p Hp) as Hframe.
    rewrite Htracks in Hframe. cbn [snd] in Hframe. rewrite Hframe.
    by subst wa.
  - intros Hnone. apply map_eq. intros p.
    destruct (decide (p = "data/processed/tracks.parquet")) as [->|Hp].
    + revert Htracks Hnone. rewrite Hsince. subst wa.
      rewrite csv_to_parquet_run. cbv zeta.
      destruct (ddl_check E _) as [[]|]; [|by intros [= _ <-]].
      destruct (load_check E _ _ _) as [[]|]; [|by intros [= _ <-]].
      destruct (scan E _ _ _) as [rows|]; [|by intros [= _ <-]].
      destruct (String.eqb_spec "data/processed/tracks.parquet" (uri "tracks"));
        [by intros [= _ <-]|discriminate].
    + pose proof (csv_to_parquet_frame E spark (uri "tracks")
                    "data/processed/tracks.parquet" TRACKS_SCHEMA true wa p Hp) as Hframe.
      rewrite Htracks in Hframe. cbn [snd] in Hframe. rewrite Hframe.
      by subst wa.
Qed.

Lemma dirs_blind_ret {A} (a : A) : dirs_blind (ret a).
Proof. done. Qed.

Lemma dirs_blind_bind {A B} (m : M A) (k : A -> M B) :
  dirs_blind m -> (forall a, dirs_blind (k a)) -> dirs_blind (bind m k).
Proof.
  intros Hm Hk d w. unfold bind. rewrite Hm.
  destruct (m w) as [[a|e] w1]; cbn [fst snd]; [apply Hk|done].
Qed.

Lemma dirs_blind_subscript {V} (d : gmap string V) key : dirs_blind (subscript d key).
Proof. intros ds w. unfold subscript. by destruct (d !! key). Qed.

Lemma dirs_blind_csv_to_parquet (E : Engine) spark inp out ddl ml :
  dirs_blind (csv_to_parquet E spark inp out ddl ml).
Proof.
  intros d w. rewrite !csv_to_parquet_run. cbv zeta. world_simpl.
  destruct (ddl_check E ddl) as [[]|]; [|done].
  destruct (load_check E _ _ _) as [[]|]; [|done].
  destruct (scan E _ _ _) as [rows|]; [|done].
  by destruct (String.eqb out inp).
Qed.

(** With [exist_ok] set, whether [makedirs] returns does not depend on the
    directories there are. *)
Lemma makedirs_outcome_dirs path d w :
  (makedirs path true (set_dirs d w)).1 = (makedirs path true w).1.
Proof.
  unfold makedirs. unfold_prog. world_simpl.
  destruct (first_file _ _); [done|].
  destruct (files w !! path); [done|].
  by destruct (decide _), (decide _).
Qed.

Lemma makedirs_ok_intro v :
  files v !! "data" = None ->
  files v !! "data/processed" = None ->
  "data/processed" ∈ dirs v ->
  makedirs "data/processed" true v
  = (Ok tt, add_calls [EMakedirs "data/processed" true] v).
Proof.
  intros Hdata Hpath Hin. unfold makedirs. unfold_prog. world_simpl.
  change (ancestors "data/processed") with ["data"]. cbn [first_file].
  rewrite Hdata, Hpath. by destruct (decide _).
Qed.

(** A conversion that returned returns the same wherever the source is the
    same; where the destination already holds what it wrote, it leaves
    every file as it is. *)
Lemma csv_to_parquet_replay (E : Engine) spark inp out ddl ml w res w' v :
  csv_to_parquet E spark inp out ddl ml w = (Ok res, w') ->
  files v !! inp = files w !! inp ->
  files v !! out = files w' !! out ->
  exists v',
    csv_to_parquet E spark inp out ddl ml v = (Ok res, v') /\
    files v' = files v /\ dirs v' = dirs v.
Proof.
  intros Hrun Hinp Hout.
  apply csv_to_parquet_ok_inv in Hrun as (rows & Hddl & Hload & Hscan & Hne & -> & ->).
  revert Hout. world_simpl. rewrite lookup_insert_eq. intros Hout.
  rewrite csv_to_parquet_run. cbv zeta. rewrite Hinp, Hddl, Hload, Hscan.
  destruct (String.eqb_spec out inp) as [|_]; [done|].
  eexists. split; [reflexivity|]. world_simpl. split; [|done].
  by apply insert_id.
Qed.

Lemma csv_to_parquet_ok_dirs (E : Engine) spark inp out ddl ml w res w' :
  csv_to_parquet E spark inp out ddl ml w = (Ok res, w') -> dirs w' = dirs w.
Proof.
  intros Hrun.
  by apply csv_to_parquet_ok_inv in Hrun as (rows & _ & _ & _ & _ & _ & ->).
Qed.

(** X4.  With the globals of an import, a [convert_all] that returned, run
    again in the world it left, returns the same dictionary and leaves the
    same files and directories. *)
Theorem convert_all_again (E : Engine) w0 g w1 spark w res w' :
  import_module w0 = (Ok g, w1) ->
  convert_all E g spark w = (Ok res, w') ->
  exists w'',
    convert_all E g spark w' = (Ok res, w'') /\
    files w'' = files w' /\
    dirs w'' = dirs w'.
Proof.
  intros Himport Hrun.
  apply import_module_globals in Himport as (Hg & _ & _).
  rewrite Hg in Hrun |- *. set (bucket := S3_BUCKET g) in *. clearbody bucket.
  apply convert_all_ok_inv in Hrun
    as (wa & wb & wc & r1 & r2 & r3 & Hdirs & Htracks & Hgenres & Hartists & ->).
  apply makedirs_ok_inv in Hdirs as (Hdata & Hpath & Hin & Hfa & _).
  pose proof (csv_to_parquet_ok_dirs _ _ _ _ _ _ _ _ _ Htracks) as Hdb.
  pose proof (csv_to_parquet_ok_dirs _ _ _ _ _ _ _ _ _ Hgenres) as Hdc.
  pose proof (csv_to_parquet_ok_dirs _ _ _ _ _ _ _ _ _ Hartists) as Hdd.
  assert (Hlook : forall p,
            p <> "data/processed/tracks.parquet" ->
            p <> "data/processed/genres.parquet" ->
            p <> "data/processed/artists.parquet" ->
            files w' !! p = files wa !! p).
  { intros p Ht Hgn Har.
    rewrite (csv_to_parquet_ok_frame _ _ _ _ _ _ _ _ _ _ Hartists Har).
    rewrite (csv_to_parquet_ok_frame _ _ _ _ _ _ _ _ _ _ Hgenres Hgn).
    by rewrite (csv_to_parquet_ok_frame _ _ _ _ _ _ _ _ _ _ Htracks Ht). }
  rewrite convert_all_imported.
  assert (Hagain : makedirs "data/processed" true w'
                   = (Ok tt, add_calls [EMakedirs "data/processed" true] w')).
  { apply makedirs_ok_intro.
    - rewrite Hlook, Hfa by paths_differ. exact Hdata.
    - rewrite Hlook, Hfa by paths_differ. exact Hpath.
    - by rewrite Hdd, Hdc, Hdb. }
  rewrite (bind_ok_run _ _ _ _ _ Hagain).
  set (va := add_calls _ w').
  destruct (csv_to_parquet_replay E _ _ _ _ _ _ _ _ va Htracks)
    as (vb & Hvb & Hfb & Hdvb).
  { subst va. world_simpl. apply Hlook; paths_differ. }
  { subst va. world_simpl.
    rewrite (csv_to_parquet_ok_frame _ _ _ _ _ _ _ _ _ _ Hartists) by paths_differ.
    by rewrite (csv_to_parquet_ok_frame _ _ _ _ _ _ _ _ _ _ Hgenres) by paths_differ. }
  rewrite (bind_ok_run _ _ _ _ _ Hvb).
  destruct (csv_to_parquet_replay E _ _ _ _ _ _ _ _ vb Hgenres)
    as (vc & Hvc & Hfc & Hdvc).
  { rewrite Hfb. subst va. world_simpl.
    rewrite (csv_to_parquet_ok_frame _ _ _ _ _ _ _ _ _ _ Hartists) by paths_differ.
    by rewrite (csv_to_parquet_ok_frame _ _ _ _ _ _ _ _ _ _ Hgenres) by paths_differ. }
  { rewrite Hfb. subst va. world_simpl.
    by rewrite (csv_to_parquet_ok_frame _ _ _ _ _ _ _ _ _ _ Hartists) by paths_differ. }
  rewrite (bind_ok_run _ _ _ _ _ Hvc).
  destruct (csv_to_parquet_replay E _ _ _ _ _ _ _ _ vc Hartists)
    as (vd & Hvd & Hfd & Hdvd).
  { rewrite Hfc, Hfb. subst va. world_simpl.
    by rewrite (csv_to_parquet_ok_frame _ _ _ _ _ _ _ _ _ _ Hartists) by paths_differ. }
  { rewrite Hfc, Hfb. by subst va. }
  rewrite (bind_ok_run _ _ _ _ _ Hvd).
  exists vd. split; [reflexivity|].
  rewrite Hfd, Hfc, Hfb, Hdvd, Hdvc, Hdvb. by subst va.
Qed.

(** X5.  With the globals of an import, when [convert_all] returns, each
    dataset was read from its source as the world [convert_all] started in
    had it, whatever the conversions before it wrote: its count is the
    number of rows of that read, its destination holds those rows, and its
    source is still what it was. *)
Theorem conversions_are_independent (E : Engine) w0 g w1 spark w res w' :
  let uri name := "s3a://" +:+ S3_BUCKET g +:+ "/raw_" +:+ name +:+ ".csv" in
  import_module w0 = (Ok g, w1) ->
  convert_all E g spark w = (Ok res, w') ->
  converted E spark w w' res "tracks" (uri "tracks")
    "data/processed/tracks.parquet" TRACKS_SCHEMA true /\
  converted E spark w w' res "genres" (uri "genres")
    "data/processed/genres.parquet" GENRES_SCHEMA false /\
  converted E spark w w' res "artists" (uri "artists")
    "data/processed/artists.parquet" ARTISTS_SCHEMA true.
Proof.
  intros uri Himport Hrun.
  apply import_module_globals in Himport as (Hg & _ & _).
  rewrite Hg in Hrun. by apply convert_all_ok_converted in Hrun.
Qed.

(** X6.  [convert_all] asks for its output directory with [exist_ok] set:
    whichever directories exist when it starts, it has the same outcome,
    issues the same calls and leaves the same files. *)
Theorem existing_directories_do_not_matter (E : Engine) g spark d w :
  let there := convert_all E g spark (set_dirs d w) in
  let fresh := convert_all E g spark w in
  there.1 = fresh.1 /\
  files there.2 = files fresh.2 /\
  calls there.2 = calls fresh.2.
Proof.
  cbv zeta. unfold convert_all.
  set (k := fun _ : unit => bind _ _).
  assert (Hk : forall u, dirs_blind (k u)).
  { intros u. subst k. cbv beta zeta.
    repeat first
      [ apply dirs_blind_ret
      | apply dirs_blind_subscript
      | apply dirs_blind_csv_to_parquet
      | apply dirs_blind_bind; [|intros ?] ]. }
  pose proof (makedirs_outcome_dirs "data/processed" d w) as Hsame.
  destruct (makedirs_effect "data/processed" true (set_dirs d w)) as [d1 Hd1].
  destruct (makedirs_effect "data/processed" true w) as [d2 Hd2].
  rewrite (bind_run _ k (set_dirs d w)), (bind_run _ k w).
  destruct (makedirs "data/processed" true (set_dirs d w)) as [o1 v1].
  destruct (makedirs "data/processed" true w) as [o2 v2].
  cbn [fst snd] in Hsame, Hd1, Hd2. subst o2 v1 v2.
  destruct o1 as [[]|e]; [|done].
  change (set_dirs d1 (add_calls [EMakedirs "data/processed" true] (set_dirs d w)))
    with (set_dirs d1 (add_calls [EMakedirs "data/processed" true] w)).
  by rewrite !Hk.
Qed.

(** ** Runs of [load_parquet] *)

Lemma same_but_calls_refl w : same_but_calls w w.
Proof. by repeat split. Qed.

Lemma same_but_calls_trans w1 w2 w3 :
  same_but_calls w1 w2 -> same_but_calls w2 w3 -> same_but_calls w1 w3.
Proof.
  intros (H1 & H2 & H3 & H4 & H5) (G1 & G2 & G3 & G4 & G5).
  repeat split; congruence.
Qed.

Lemma observes_ret {A} (a : A) : observes (ret a).
Proof. intros w. apply same_but_calls_refl. Qed.

Lemma observes_bind {A B} (m : M A) (k : A -> M B) :
  observes m -> (forall a, observes (k a)) -> observes (bind m k).
Proof.
  intros Hm Hk w. unfold bind. specialize (Hm w).
  destruct (m w) as [[a|e] w1]; cbn [snd] in *; [|done].
  eapply same_but_calls_trans; [exact Hm | apply Hk].
Qed.

Lemma observes_subscript {V} (d : gmap string V) key : observes (subscript d key).
Proof. intros w. unfold subscript. destruct (d !! key); apply same_but_calls_refl. Qed.

Lemma observes_print line : observes (print line).
Proof. intros w. by repeat split. Qed.

Lemma observes_load (E : Engine) path r : observes (load E path r).
Proof.
  intros w. rewrite load_run.
  destruct (load_check E _ _ _); by repeat split.
Qed.

Lemma observes_count (E : Engine) df : observes (count E df).
Proof.
  intros w. rewrite count_run.
  destruct (scan E _ _ _); by repeat split.
Qed.

Lemma observes_load_parquet (E : Engine) g spark : observes (load_parquet E g spark).
Proof.
  unfold load_parquet, r_parquet.
  repeat first
    [ apply observes_ret
    | apply observes_subscript
    | apply observes_print
    | apply observes_load
    | apply observes_count
    | apply observes_bind; [|intros ?] ].
Qed.

Lemma emits_subscript {V} P (d : gmap string V) key : emits P (subscript d key).
Proof.
  intros w. exists []. rewrite app_nil_r. unfold subscript.
  by destruct (d !! key).
Qed.

Lemma emits_print (P : Event -> Prop) line : P (EPrint line) -> emits P (print line).
Proof. intros HP w. exists [EPrint line]. split; [done|]. by constructor. Qed.

Lemma emits_load (E : Engine) (P : Event -> Prop) path r :
  P (ELoad r path) -> emits P (load E path r).
Proof.
  intros HP w. rewrite load_run. exists [ELoad r path].
  split; [by destruct (load_check E _ _ _)|]. by constructor.
Qed.

Lemma emits_count (E : Engine) (P : Event -> Prop) df :
  P (ECount df) -> emits P (count E df).
Proof.
  intros HP w. rewrite count_run. exists [ECount df].
  split; [by destruct (scan E _ _ _)|]. by constructor.
Qed.

Lemma emits_load_parquet (E : Engine) g spark :
  emits inspection_call (load_parquet E g spark).
Proof.
  unfold load_parquet, r_parquet.
  repeat first
    [ apply emits_ret
    | apply emits_subscript
    | apply emits_print; exact I
    | apply emits_load; exact I
    | apply emits_count; exact I
    | apply emits_bind; [|intros ?] ].
Qed.

Lemma writes_nil es :
  Forall inspection_call es -> writes es = [] /\ makedirs_calls es = [].
Proof.
  induction 1 as [|e es He _ [IH1 IH2]]; [done|].
  unfold writes, makedirs_calls in *. cbn [flat_map]. rewrite IH1, IH2.
  by destruct e.
Qed.

(** X7.  [load_parquet] only looks: whatever its outcome, it issues no
    write and creates no directory, and it leaves the environment, the
    session, the files and the directories as they were. *)
Theorem load_parquet_only_looks (E : Engine) g spark w :
  let w' := (load_parquet E g spark w).2 in
  environ w' = environ w /\
  dotenv w' = dotenv w /\
  session w' = session w /\
  files w' = files w /\
  dirs w' = dirs w /\
  writes (calls_since w w') = [] /\
  makedirs_calls (calls_since w w') = [].
Proof.
  cbv zeta.
  destruct (observes_load_parquet E g spark w) as (H1 & H2 & H3 & H4 & H5).
  destruct (writes_nil _ (emits_since _ _ w (emits_load_parquet E g spark)))
    as [Hw Hm].
  by repeat split.
Qed.

Section LoadingRuns.
Variable E : Engine.

Lemma load_parquet_imported bucket region spark :
  load_parquet E (globals_of bucket region) spark =
  (do tracks <- load E "data/processed/tracks.parquet" (parquet_reader spark) ;;
   do genres <- load E "data/processed/genres.parquet" (parquet_reader spark) ;;
   do artists <- load E "data/processed/artists.parquet" (parquet_reader spark) ;;
   do n <- count E tracks ;;
   do _ <- print ("Tracks:  " +:+ Text.thousands n +:+ " records") ;;
   do n <- count E genres ;;
   do _ <- print ("Genres:  " +:+ Text.thousands n +:+ " records") ;;
   do n <- count E artists ;;
   do _ <- print ("Artists: " +:+ Text.thousands n +:+ " records") ;;
   ret {[ "tracks" := tracks; "genres" := genres; "artists" := artists ]}).
Proof. reflexivity. Qed.

(** The run of [load_parquet] when its three loads and its three counts
    go through. *)
Lemma load_parquet_ok_run bucket region spark w rows1 rows2 rows3 :
  let out name := "data/processed/" +:+ name +:+ ".parquet" in
  (forall name, In name ["tracks"; "genres"; "artists"] ->
     load_check E (parquet_reader spark) (out name) (files w !! out name) = Ok tt) ->
  scan E (parquet_reader spark) (out "tracks") (files w !! out "tracks") = Ok rows1 ->
  scan E (parquet_reader spark) (out "genres") (files w !! out "genres") = Ok rows2 ->
  scan E (parquet_reader spark) (out "artists") (files w !! out "artists") = Ok rows3 ->
  load_parquet E (globals_of bucket region) spark w =
  (Ok {[ "tracks" := parquet_frame spark (out "tracks");
         "genres" := parquet_frame spark (out "genres");
         "artists" := parquet_frame spark (out "artists") ]},
   add_calls
     [ELoad (parquet_reader spark) (out "tracks");
      ELoad (parquet_reader spark) (out "genres");
      ELoad (parquet_reader spark) (out "artists");
      ECount (parquet_frame spark (out "tracks"));
      EPrint ("Tracks:  " +:+ Text.thousands (length rows1) +:+ " records");
      ECount (parquet_frame spark (out "genres"));
      EPrint ("Genres:  " +:+ Text.thousands (length rows2) +:+ " records");
      ECount (parquet_frame spark (out "artists"));
      EPrint ("Artists: " +:+ Text.thousands (length rows3) +:+ " records")] w).
Proof.
  intros out Hload Hs1 Hs2 Hs3.
  pose proof (Hload "tracks" ltac:(cbn; tauto)) as Hl1.
  pose proof (Hload "genres" ltac:(cbn; tauto)) as Hl2.
  pose proof (Hload "artists" ltac:(cbn; tauto)) as Hl3.
  subst out. cbn beta in *.
  change ("data/processed/" +:+ "tracks" +:+ ".parquet")
    with "data/processed/tracks.parquet" in *.
  change ("data/processed/" +:+ "genres" +:+ ".parquet")
    with "data/processed/genres.parquet" in *.
  change ("data/processed/" +:+ "artists" +:+ ".parquet")
    with "data/processed/artists.parquet" in *.
  rewrite load_parquet_imported.
  rewrite bind_run, load_run, Hl1. cbv iota.
  rewrite bind_run, load_run. world_simpl. rewrite Hl2. cbv iota.
  rewrite bind_run, load_run. world_simpl. rewrite Hl3. cbv iota.
  rewrite bind_run, count_run. world_simpl. cbn [df_reader df_path].
  rewrite Hs1. cbv iota.
  rewrite bind_run, print_run. cbv iota.
  rewrite bind_run, count_run. world_simpl. cbn [df_reader df_path].
  rewrite Hs2. cbv iota.
  rewrite bind_run, print_run. cbv iota.
  rewrite bind_run, count_run. world_simpl. cbn [df_reader df_path].
  rewrite Hs3. cbv iota.
  rewrite bind_run, print_run. cbv iota. unfold ret.
  by rewrite !add_calls_app.
Qed.

End LoadingRuns.

(** X8.  [load_parquet] loads its three paths before it counts anything.
    With the globals of an import, when the tracks output loads and the
    load of the genres output raises, [load_parquet] raises that error
    after the two loads: nothing is counted, nothing printed, and the
    artists output is not looked at. *)
Theorem load_parquet_loads_before_counting
    (E : Engine) w0 g w1 spark w e :
  import_module w0 = (Ok g, w1) ->
  load_check E (parquet_reader spark) "data/processed/tracks.parquet"
    (files w !! "data/processed/tracks.parquet") = Ok tt ->
  load_check E (parquet_reader spark) "data/processed/genres.parquet"
    (files w !! "data/processed/genres.parquet") = Raise e ->
  load_parquet E g spark w =
    (Raise e,
     add_calls [ELoad (parquet_reader spark) "data/processed/tracks.parquet";
                ELoad (parquet_reader spark) "data/processed/genres.parquet"] w) /\
  counts (calls_since w (load_parquet E g spark w).2) = [] /\
  prints (calls_since w (load_parquet E g spark w).2) = [].
Proof.
  intros Himport Hl1 Hl2.
  apply import_module_globals in Himport as (Hg & _ & _).
  assert (Hrun : load_parquet E g spark w =
    (Raise e,
     add_calls [ELoad (parquet_reader spark) "data/processed/tracks.parquet";
                ELoad (parquet_reader spark) "data/processed/genres.parquet"] w)).
  { rewrite Hg, load_parquet_imported.
    rewrite bind_run, load_run, Hl1. cbv iota.
    rewrite bind_run, load_run. world_simpl. rewrite Hl2. cbv iota.
    by rewrite add_calls_app. }
  rewrite Hrun. cbn [snd]. by rewrite calls_since_add_calls.
Qed.

Lemma spark_files_reads_back : reads_parquet_back SparkFiles.engine.
Proof. intros r path parts Hformat. cbn. unfold SparkFiles.scan, SparkFiles.reads_parquet. by rewrite Hformat. Qed.

(** X9.  On an engine that reads columnar datasets back, and with the
    globals of an import: after a [convert_all] that returned,
    [load_parquet] returns, and the three counts it prints are the counts
    [convert_all] reported, dataset by dataset.  The data frames it returns
    are the reads of the three destinations. *)
Theorem load_parquet_reports_converted_counts
    (E : Engine) w0 g w1 spark spark' w res w' :
  reads_parquet_back E ->
  import_module w0 = (Ok g, w1) ->
  convert_all E g spark w = (Ok res, w') ->
  exists n1 n2 n3 frames w'',
    res !! "tracks" = Some (conversion_result n1 "data/processed/tracks.parquet") /\
    res !! "genres" = Some (conversion_result n2 "data/processed/genres.parquet") /\
    res !! "artists" = Some (conversion_result n3 "data/processed/artists.parquet") /\
    load_parquet E g spark' w' = (Ok frames, w'') /\
    prints (calls_since w' w'') =
      ["Tracks:  " +:+ Text.thousands n1 +:+ " records";
       "Genres:  " +:+ Text.thousands n2 +:+ " records";
       "Artists: " +:+ Text.thousands n3 +:+ " records"] /\
    dom frames = {[ "tracks"; "genres"; "artists" ]} /\
    frames !! "tracks" = Some (parquet_frame spark' "data/processed/tracks.parquet") /\
    frames !! "genres" = Some (parquet_frame spark' "data/processed/genres.parquet") /\
    frames !! "artists" = Some (parquet_frame spark' "data/processed/artists.parquet").
Proof.
  intros Hback Himport Hrun.
  apply import_module_globals in Himport as (Hg & _ & _).
  rewrite Hg in Hrun |- *.
  apply convert_all_ok_converted in Hrun
    as ((rows1 & _ & Hr1 & Hf1 & _) & (rows2 & _ & Hr2 & Hf2 & _)
        & (rows3 & _ & Hr3 & Hf3 & _)).
  exists (length rows1), (length rows2), (length rows3).
  eexists _, _. split; [exact Hr1|]. split; [exact Hr2|]. split; [exact Hr3|].
  split.
  - apply (load_parquet_ok_run E _ _ spark' w' rows1 rows2 rows3).
    + intros name [<-|[<-|[<-|[]]]]; cbn beta;
        [ change (files w' !! _) with (files w' !! "data/processed/tracks.parquet");
          rewrite Hf1
        | change (files w' !! _) with (files w' !! "data/processed/genres.parquet");
          rewrite Hf2
        | change (files w' !! _) with (files w' !! "data/processed/artists.parquet");
          rewrite Hf3 ];
        by apply Hback.
    + cbn beta.
      change (files w' !! _) with (files w' !! "data/processed/tracks.parquet").
      rewrite Hf1.
      destruct (Hback (parquet_reader spark') "data/processed/tracks.parquet"
                  [("snappy", rows1)] eq_refl) as [_ Hscan].
      etrans; [exact Hscan|]. cbn. by rewrite app_nil_r.
    + cbn beta.
      change (files w' !! _) with (files w' !! "data/processed/genres.parquet").
      rewrite Hf2.
      destruct (Hback (parquet_reader spark') "data/processed/genres.parquet"
                  [("snappy", rows2)] eq_refl) as [_ Hscan].
      etrans; [exact Hscan|]. cbn. by rewrite app_nil_r.
    + cbn beta.
      change (files w' !! _) with (files w' !! "data/processed/artists.parquet").
      rewrite Hf3.
      destruct (Hback (parquet_reader spark') "data/processed/artists.parquet"
                  [("snappy", rows3)] eq_refl) as [_ Hscan].
      etrans; [exact Hscan|]. cbn. by rewrite app_nil_r.
  - split; [by rewrite calls_since_add_calls|].
    split; [rewrite !dom_insert_L, dom_singleton_L; set_solver|].
    repeat split; reflexivity.
Qed.

(** ** The import *)

(** X10.  After the import, a variable the process had set keeps its
    value, a variable it had not set has the value of the .env file, if
    any; CONTAINER_ID alone loses the value the process had, and since it
    is dropped before the .env file is read, has the value of the file.
    Nothing but the environment changes. *)
Theorem dotenv_only_fills_gaps (w0 : World) :
  let w1 := (import_module w0).2 in
  (forall k v, k <> "CONTAINER_ID" -> environ w0 !! k = Some v ->
               environ w1 !! k = Some v) /\
  (forall k, environ w0 !! k = None -> environ w1 !! k = dotenv w0 !! k) /\
  environ w1 !! "CONTAINER_ID" = dotenv w0 !! "CONTAINER_ID" /\
  dotenv w1 = dotenv w0 /\
  session w1 = session w0 /\
  files w1 = files w0 /\
  dirs w1 = dirs w0.
Proof.
  cbv zeta. rewrite import_module_run. cbn [snd]. world_simpl.
  unfold imported_environ. repeat split.
  - intros k v Hk Hv. apply lookup_union_Some_l. by rewrite lookup_delete_ne.
  - intros k Hk. apply lookup_union_r.
    destruct (decide (k = "CONTAINER_ID")) as [->|Hne];
      [apply lookup_delete_eq | by rewrite lookup_delete_ne].
  - apply lookup_union_r, lookup_delete_eq.
Qed.

(** X11.  Credentials that only the .env file has reach the session: when
    the process has neither and the file has both, non-empty,
    [create_spark_session] raises before the import and, after it, returns
    a session built with the values of the file. *)
Theorem dotenv_credentials_reach_session (w0 : World) (a s : string) :
  environ w0 !! "AWS_ACCESS_KEY_ID" = None ->
  environ w0 !! "AWS_SECRET_ACCESS_KEY" = None ->
  dotenv w0 !! "AWS_ACCESS_KEY_ID" = Some a ->
  dotenv w0 !! "AWS_SECRET_ACCESS_KEY" = Some s ->
  a <> Text.empty ->
  s <> Text.empty ->
  exists g w1 sess w2,
    import_module w0 = (Ok g, w1) /\
    (create_spark_session g w0).1 = Raise (ValueError credentials_message) /\
    create_spark_session g w1 = (Ok sess, w2) /\
    conf sess !! "spark.hadoop.fs.s3a.access.key" = Some a /\
    conf sess !! "spark.hadoop.fs.s3a.secret.key" = Some s.
Proof.
  intros Hna Hns Ha Hs Hane Hsne.
  eexists _, _, _, _. split; [apply import_module_run|].
  assert (Hia : imported_environ w0 !! "AWS_ACCESS_KEY_ID" = Some a).
  { unfold imported_environ. rewrite lookup_union_r; [done|].
    by rewrite lookup_delete_ne. }
  assert (His : imported_environ w0 !! "AWS_SECRET_ACCESS_KEY" = Some s).
  { unfold imported_environ. rewrite lookup_union_r; [done|].
    by rewrite lookup_delete_ne. }
  rewrite !create_spark_session_run. cbv zeta. world_simpl.
  rewrite Hna, Hns, Hia, His.
  destruct a as [|ca a]; [done|]. destruct s as [|cs s]; [done|].
  cbn [truthy negb orb fst env_text default].
  split; [reflexivity|]. split; [reflexivity|]. cbn [conf].
  destruct (session w0); split;
    first [apply lookup_union_Some_l; reflexivity | reflexivity].
Qed.

(** X12.  The default bucket is for a variable that is not set: with
    S3_BUCKET set to the empty text, the import keeps the empty text and
    the three source URIs have no bucket in them. *)
Theorem empty_bucket_is_not_defaulted (w0 : World) :
  environ w0 !! "S3_BUCKET" = Some Text.empty ->
  exists g w1,
    import_module w0 = (Ok g, w1) /\
    S3_BUCKET g = Text.empty /\
    S3_INPUT g !! "tracks" = Some "s3a:///raw_tracks.csv" /\
    S3_INPUT g !! "genres" = Some "s3a:///raw_genres.csv" /\
    S3_INPUT g !! "artists" = Some "s3a:///raw_artists.csv".
Proof.
  intros Hempty. eexists _, _. split; [apply import_module_run|].
  assert (Hb : imported_environ w0 !! "S3_BUCKET" = Some Text.empty).
  { unfold imported_environ. apply lookup_union_Some_l. by rewrite lookup_delete_ne. }
  rewrite Hb. repeat split; reflexivity.
Qed.

(** ** The session provisioner *)

(** X13.  A second [create_spark_session] in the world the first one left
    returns the same session, which stays the session of the process. *)
Theorem create_spark_session_again g w sess w' :
  create_spark_session g w = (Ok sess, w') ->
  exists w'',
    create_spark_session g w' = (Ok sess, w'') /\
    session w'' = Some sess /\
    files w'' = files w' /\
    environ w'' = environ w'.
Proof.
  rewrite !create_spark_session_run. cbv zeta.
  destruct (negb _ || negb _) eqn:Hcond; [discriminate|].
  intros [= <- <-]. world_simpl. rewrite Hcond. cbn [conf].
  set (b := session_options _ _ _).
  assert (Hsame : b ∪ match session w with
                      | Some s0 => b ∪ conf s0
                      | None => b
                      end
                  = match session w with
                    | Some s0 => b ∪ conf s0
                    | None => b
                    end).
  { destruct (session w) as [s0|].
    - by rewrite (assoc_L (∪)), (idemp_L (∪)).
    - by rewrite (idemp_L (∪)). }
  rewrite Hsame. eexists. split; [reflexivity|]. by repeat split.
Qed.

(** ** [run_pipeline] *)

Lemma run_pipeline_run (E : Engine) g w :
  run_pipeline E g w =
  (do spark <- create_spark_session g ;;
   do raw_parquet <- convert_all E g spark ;;
   ret tt) (add_calls pipeline_banner w).
Proof.
  unfold run_pipeline.
  do 3 (rewrite bind_run, print_run; cbv iota). by rewrite !add_calls_app.
Qed.

(** X14.  When the access key or the secret key is unset or empty,
    [run_pipeline] prints its banner, reads the two variables and raises
    [ValueError]: no directory is asked for, no source is loaded, and the
    world is otherwise as it was. *)
Theorem pipeline_stops_without_credentials (E : Engine) g w :
  let access := environ w !! "AWS_ACCESS_KEY_ID" in
  let secret := environ w !! "AWS_SECRET_ACCESS_KEY" in
  access = None \/ access = Some Text.empty \/
  secret = None \/ secret = Some Text.empty ->
  run_pipeline E g w =
    (Raise (ValueError credentials_message),
     add_calls
       (pipeline_banner ++
        [EGetenv "AWS_ACCESS_KEY_ID"; EGetenv "AWS_SECRET_ACCESS_KEY"]) w).
Proof.
  intros access secret Hmissing.
  rewrite run_pipeline_run, bind_run, create_spark_session_run. cbv zeta.
  world_simpl. fold access secret.
  assert (Hcond : negb (truthy access) || negb (truthy secret) = true).
  { apply orb_true_iff. rewrite !negb_true_iff, !truthy_false. tauto. }
  rewrite Hcond. by rewrite add_calls_app.
Qed.

Lemma session_after_bind {A B} (m : M A) (k : A -> M B) :
  (forall w, session (m w).2 = session w) ->
  (forall a w, session (k a w).2 = session w) ->
  forall w, session (bind m k w).2 = session w.
Proof.
  intros Hm Hk w. unfold bind. specialize (Hm w).
  destruct (m w) as [[a|e] w1]; cbn [snd] in *; [|done].
  by rewrite Hk.
Qed.

Lemma csv_to_parquet_session (E : Engine) spark inp out ddl ml w :
  session (csv_to_parquet E spark inp out ddl ml w).2 = session w.
Proof.
  rewrite csv_to_parquet_run. cbv zeta.
  destruct (ddl_check E ddl) as [[]|];
    [destruct (load_check E _ _ _) as [[]|];
      [destruct (scan E _ _ _) as [rows|]; [destruct (String.eqb out inp)|]|]|];
    done.
Qed.

Lemma convert_all_session (E : Engine) bucket region spark w :
  session (convert_all E (globals_of bucket region) spark w).2 = session w.
Proof.
  revert w. rewrite convert_all_imported.
  apply session_after_bind.
  { intros w. by destruct (makedirs_effect "data/processed" true w) as [d ->]. }
  intros _. apply session_after_bind; [apply csv_to_parquet_session|]. intros r1.
  apply session_after_bind; [apply csv_to_parquet_session|]. intros r2.
  apply session_after_bind; [apply csv_to_parquet_session|]. intros r3.
  done.
Qed.

(** What a returning [create_spark_session] leaves. *)
Lemma create_spark_session_ok_inv g w sess w' :
  create_spark_session g w = (Ok sess, w') ->
  session w' = Some sess /\
  log_level sess = Some "WARN" /\
  conf sess !! "spark.hadoop.fs.s3a.access.key" = environ w !! "AWS_ACCESS_KEY_ID" /\
  conf sess !! "spark.hadoop.fs.s3a.secret.key"
    = environ w !! "AWS_SECRET_ACCESS_KEY" /\
  exists es, calls w' = calls w ++ es /\ loads es = [].
Proof.
  rewrite create_spark_session_run. cbv zeta.
  destruct (environ w !! "AWS_ACCESS_KEY_ID") as [[|ca a]|]; [done| |done].
  destruct (environ w !! "AWS_SECRET_ACCESS_KEY") as [[|cs s]|]; [done| |done].
  cbn [truthy negb orb env_text default]. intros [= <- <-].
  split; [reflexivity|]. split; [reflexivity|].
  split; [cbn [conf]; destruct (session w);
          [apply lookup_union_Some_l|]; reflexivity|].
  split; [cbn [conf]; destruct (session w);
          [apply lookup_union_Some_l|]; reflexivity|].
  eexists. split; reflexivity.
Qed.

(** X15.  With the globals of an import, when [run_pipeline] returns, the
    session it created is built with the two credentials of the
    environment, has log level WARN, is the session every source was
    loaded through, and is still the session of the process. *)
Theorem pipeline_reads_through_its_session (E : Engine) w0 g w1 w w' :
  import_module w0 = (Ok g, w1) ->
  run_pipeline E g w = (Ok tt, w') ->
  exists sess,
    session w' = Some sess /\
    log_level sess = Some "WARN" /\
    conf sess !! "spark.hadoop.fs.s3a.access.key" = environ w !! "AWS_ACCESS_KEY_ID" /\
    conf sess !! "spark.hadoop.fs.s3a.secret.key"
      = environ w !! "AWS_SECRET_ACCESS_KEY" /\
    length (loads (calls_since w w')) = 3%nat /\
    (forall r p, In (r, p) (loads (calls_since w w')) -> r_session r = sess).
Proof.
  intros Himport Hrun.
  apply import_module_globals in Himport as (Hg & _ & _).
  rewrite run_pipeline_run in Hrun.
  apply bind_ok_inv in Hrun as (sess & ws & Hsess & Hrun).
  apply bind_ok_inv in Hrun as (res & wd & Hconv & Hrun).
  injection Hrun as <-. exists sess.
  apply create_spark_session_ok_inv in Hsess
    as (Hws & Hlevel & Haccess & Hsecret & es0 & Hcalls0 & Hloads0).
  revert Haccess Hsecret Hcalls0. world_simpl. intros Haccess Hsecret Hcalls0.
  rewrite Hg in Hconv.
  set (bucket := S3_BUCKET g) in *. set (region := AWS_REGION g) in *.
  clearbody bucket region.
  pose proof (convert_all_session E bucket region sess ws) as Hkeep.
  rewrite Hconv in Hkeep. cbn [snd] in Hkeep.
  split; [by rewrite Hkeep|]. split; [exact Hlevel|].
  split; [exact Haccess|]. split; [exact Hsecret|].
  apply convert_all_ok_inv in Hconv
    as (wa & wb & wc & r1 & r2 & r3 & Hdirs & Ht & Hgn & Har & _).
  apply makedirs_ok_inv in Hdirs as (_ & _ & _ & _ & Hca).
  apply csv_to_parquet_ok_calls in Ht as (e1 & Hc1 & Hl1 & _).
  apply csv_to_parquet_ok_calls in Hgn as (e2 & Hc2 & Hl2 & _).
  apply csv_to_parquet_ok_calls in Har as (e3 & Hc3 & Hl3 & _).
  assert (Hsince : loads (calls_since w wd)
                   = loads e1 ++ loads e2 ++ loads e3).
  { unfold calls_since. rewrite Hc3, Hc2, Hc1, Hca, Hcalls0.
    rewrite <- !app_assoc, drop_app_length. unfold loads.
    rewrite !flat_map_app. fold (loads es0). by rewrite Hloads0. }
  rewrite Hsince, Hl1, Hl2, Hl3. split; [reflexivity|].
  intros r p [[= <- _]|[[= <- _]|[[= <- _]|[]]]]; reflexivity.
Qed.

(** ** The count on the console *)

Lemma strip_commas_of_list l :
  strip_commas (string_of_list_ascii l) = string_of_list_ascii (strip_commas_list l).
Proof.
  induction l as [|c l IH]; [done|]. cbn.
  destruct (Ascii.eqb c ","%char); cbn; by rewrite IH.
Qed.

Lemma strip_commas_list_app l1 l2 :
  strip_commas_list (l1 ++ l2) = strip_commas_list l1 ++ strip_commas_list l2.
Proof. apply List.filter_app. Qed.

Lemma strip_commas_list_rev l :
  strip_commas_list (rev l) = rev (strip_commas_list l).
Proof.
  induction l as [|c l IH]; [done|]. cbn [rev].
  rewrite strip_commas_list_app, IH. cbn.
  destruct (Ascii.eqb c ","%char); cbn; [by rewrite app_nil_r | done].
Qed.

(** Grouping adds commas and nothing else. *)
Lemma group3_strip rd k acc :
  strip_commas_list (Text.group3 rd k acc)
  = rev (strip_commas_list rd) ++ strip_commas_list acc.
Proof.
  revert k acc. induction rd as [|d ds IH]; intros k acc; [done|].
  assert (Hstep : strip_commas_list (Text.group3 ds (S k) (d :: acc))
                  = rev (strip_commas_list (d :: ds)) ++ strip_commas_list acc).
  { rewrite IH. cbn. destruct (Ascii.eqb d ","%char); cbn; [done|].
    by rewrite <- app_assoc. }
  assert (Hcomma : strip_commas_list (Text.group3 ds 0 (","%char :: d :: acc))
                   = rev (strip_commas_list (d :: ds)) ++ strip_commas_list acc).
  { rewrite IH. cbn. destruct (Ascii.eqb d ","%char); cbn; [done|].
    by rewrite <- app_assoc. }
  cbn [Text.group3].
  destruct k as [|[|[|k]]]; try exact Hstep.
  destruct ds; [exact Hstep | exact Hcomma].
Qed.

(** The decimal numeral of a number has no comma. *)
Lemma pretty_N_char_no_comma x : Ascii.eqb (pretty_N_char x) ","%char = false.
Proof. unfold pretty_N_char. by repeat case_match. Qed.

Lemma pretty_N_go_no_comma x s :
  strip_commas s = s -> strip_commas (pretty_N_go x s) = pretty_N_go x s.
Proof.
  revert s. induction (N.lt_wf_0 x) as [x _ IH]; intros s Hs.
  destruct (decide (0 < x)%N) as [Hx|Hx].
  - rewrite pretty_N_go_step by done. apply IH.
    + apply N.div_lt; lia.
    + cbn. by rewrite pretty_N_char_no_comma, Hs.
  - assert (x = 0%N) as -> by lia. by rewrite pretty_N_go_0.
Qed.

Lemma pretty_N_no_comma (x : N) : strip_commas (pretty x) = pretty x.
Proof.
  unfold pretty, pretty_N. case_decide; [done|]. by apply pretty_N_go_no_comma.
Qed.

Lemma strip_commas_list_of_string s :
  strip_commas s = s -> strip_commas_list (list_ascii_of_string s) = list_ascii_of_string s.
Proof.
  intros Hs. rewrite <- (string_of_list_ascii_of_string s) in Hs at 1.
  rewrite strip_commas_of_list in Hs.
  apply (f_equal list_ascii_of_string) in Hs.
  by rewrite list_ascii_of_string_of_list_ascii in Hs.
Qed.

(** Without its commas, the grouped numeral is the decimal numeral. *)
Lemma thousands_strip n : strip_commas (Text.thousands n) = pretty n.
Proof.
  unfold Text.thousands. rewrite strip_commas_of_list, group3_strip.
  rewrite strip_commas_list_rev, rev_involutive. cbn [strip_commas_list List.filter].
  rewrite app_nil_r, strip_commas_list_of_string by apply pretty_N_no_comma.
  apply string_of_list_ascii_of_string.
Qed.

(** X16.  A conversion that returns prints, as its one "Records read"
    line, the count it returns: without the commas the numeral on the line
    is the decimal numeral of the count, so two conversions print the same
    numeral only when they return the same count. *)
Theorem records_line_carries_the_count
    (E : Engine) spark inp out ddl ml w res w' :
  csv_to_parquet E spark inp out ddl ml w = (Ok res, w') ->
  exists n numeral,
    res !! "count" = Some (VInt (Z.of_nat n)) /\
    List.filter (Text.starts_with "Records read: ") (prints (calls_since w w'))
      = ["Records read: " +:+ numeral] /\
    strip_commas numeral = pretty n /\
    (forall m, strip_commas numeral = pretty m -> m = n).
Proof.
  intros Hrun.
  apply csv_to_parquet_ok_inv in Hrun as (rows & _ & _ & _ & _ & -> & ->).
  exists (length rows), (Text.thousands (length rows)).
  split; [reflexivity|]. split.
  - rewrite calls_since_set_files. unfold banner, prints. cbn.
    destruct inp, out; reflexivity.
  - split; [apply thousands_strip|].
    intros m Hm. rewrite thousands_strip in Hm. symmetry. by apply (inj pretty).
Qed.

(** ** The schema texts *)

(** X17.  Each of the three schema texts is accepted as DDL by the CSV
    source and declares no column name twice; a column that the tracks and
    the artists schemas both declare has the same type in both. *)
Theorem schemas_declare_each_column_once :
  ddl_check Spark.engine TRACKS_SCHEMA = Ok tt /\
  ddl_check Spark.engine GENRES_SCHEMA = Ok tt /\
  ddl_check Spark.engine ARTISTS_SCHEMA = Ok tt /\
  NoDup (ddl_names TRACKS_SCHEMA) /\
  NoDup (ddl_names GENRES_SCHEMA) /\
  NoDup (ddl_names ARTISTS_SCHEMA) /\
  (forall name,
     name ∈ ddl_names TRACKS_SCHEMA ->
     name ∈ ddl_names ARTISTS_SCHEMA ->
     ddl_type TRACKS_SCHEMA name = ddl_type ARTISTS_SCHEMA name).
Proof.
  split; [vm_compute; reflexivity|]. split; [vm_compute; reflexivity|].
  split; [vm_compute; reflexivity|].
  split; [refine (bool_decide_unpack _ _); vm_compute; exact I|].
  split; [refine (bool_decide_unpack _ _); vm_compute; exact I|].
  split; [refine (bool_decide_unpack _ _); vm_compute; exact I|].
  apply (proj1 (Forall_forall
                  (fun name => name ∈ ddl_names ARTISTS_SCHEMA ->
                               ddl_type TRACKS_SCHEMA name = ddl_type ARTISTS_SCHEMA name)
                  (ddl_names TRACKS_SCHEMA))).
  refine (bool_decide_unpack _ _). vm_compute. exact I.
Qed.

(** ** Witnesses of the further properties *)

(** Witness of X2: a file where the output directory should be. *)
Lemma blocked_directory_stops_everything_witness :
  let w := Scenario.blocked_world in
  let e := FileExistsError "data/processed" in
  makedirs "data/processed" true w = (Raise e, (makedirs "data/processed" true w).2) /\
  convert_all Spark.engine Sample.globals Sample.spark w
    = (Raise e, (makedirs "data/processed" true w).2) /\
  files (makedirs "data/processed" true w).2 = files w /\
  calls_since w (makedirs "data/processed" true w).2
    = [EMakedirs "data/processed" true].
Proof.
  intros w e.
  assert (Hdirs : makedirs "data/processed" true w
                  = (Raise e, (makedirs "data/processed" true w).2))
    by (vm_compute; reflexivity).
  split; [exact Hdirs|].
  exact (blocked_directory_stops_everything Spark.engine Sample.globals Sample.spark
           w e _ Hdirs).
Defined.

(** Witness of X3: the tracks source cannot be read. *)
Lemma first_failure_stops_the_rest_witness :
  let w := Scenario.unreadable_tracks_world in
  let e := RuntimeFailure "Not a delimited-text source" in
  let tracks :=
    csv_to_parquet Spark.engine Sample.spark "s3a://musicrec-data/raw_tracks.csv"
      "data/processed/tracks.parquet" TRACKS_SCHEMA true
      (makedirs "data/processed" true w).2 in
  import_module Sample.world = (Ok Sample.globals, (import_module Sample.world).2) /\
  makedirs "data/processed" true w = (Ok tt, (makedirs "data/processed" true w).2) /\
  tracks = (Raise e, tracks.2) /\
  convert_all Spark.engine Sample.globals Sample.spark w = (Raise e, tracks.2) /\
  (forall r p,
     In (r, p) (loads (calls_since w tracks.2)) ->
     p = "s3a://musicrec-data/raw_tracks.csv") /\
  writes (calls_since w tracks.2) = [] /\
  files tracks.2 = files w.
Proof.
  intros w e tracks.
  assert (Himport : import_module Sample.world
                    = (Ok Sample.globals, (import_module Sample.world).2))
    by (vm_compute; reflexivity).
  assert (Hdirs : makedirs "data/processed" true w
                  = (Ok tt, (makedirs "data/processed" true w).2))
    by (vm_compute; reflexivity).
  assert (Htracks : tracks = (Raise e, tracks.2)) by (vm_compute; reflexivity).
  assert (Hnone : writes (calls_since w tracks.2) = []) by (vm_compute; reflexivity).
  destruct (first_failure_stops_the_rest Spark.engine _ _ _ Sample.spark w _ e _
              Himport Hdirs Htracks) as (Hrun & Hloads & _ & _ & Hfiles).
  split; [exact Himport|]. split; [exact Hdirs|]. split; [exact Htracks|].
  split; [exact Hrun|]. split; [exact Hloads|]. split; [exact Hnone|].
  exact (Hfiles Hnone).
Defined.

(** Witness of X4: [convert_all] twice in the sample world. *)
Lemma convert_all_again_witness :
  let run := convert_all Spark.engine Sample.globals Sample.spark Sample.world in
  import_module Sample.world = (Ok Sample.globals, (import_module Sample.world).2) /\
  run = (Ok Sample.results, run.2) /\
  exists w'',
    convert_all Spark.engine Sample.globals Sample.spark run.2
      = (Ok Sample.results, w'') /\
    files w'' = files run.2 /\
    dirs w'' = dirs run.2.
Proof.
  intros run.
  assert (Himport : import_module Sample.world
                    = (Ok Sample.globals, (import_module Sample.world).2))
    by (vm_compute; reflexivity).
  assert (Hrun : run = (Ok Sample.results, run.2)) by (vm_compute; reflexivity).
  split; [exact Himport|]. split; [exact Hrun|].
  exact (convert_all_again Spark.engine _ _ _ _ _ _ _ Himport Hrun).
Defined.

(** Witness of X5: [convert_all] in the sample world. *)
Lemma conversions_are_independent_witness :
  let run := convert_all Spark.engine Sample.globals Sample.spark Sample.world in
  import_module Sample.world = (Ok Sample.globals, (import_module Sample.world).2) /\
  run = (Ok Sample.results, run.2) /\
  converted Spark.engine Sample.spark Sample.world run.2 Sample.results "genres"
    "s3a://musicrec-data/raw_genres.csv" "data/processed/genres.parquet"
    GENRES_SCHEMA false.
Proof.
  intros run.
  assert (Himport : import_module Sample.world
                    = (Ok Sample.globals, (import_module Sample.world).2))
    by (vm_compute; reflexivity).
  assert (Hrun : run = (Ok Sample.results, run.2)) by (vm_compute; reflexivity).
  split; [exact Himport|]. split; [exact Hrun|].
  exact (proj1 (proj2 (conversions_are_independent Spark.engine _ _ _ _ _ _ _
                         Himport Hrun))).
Defined.

(** Witness of X8: the genres output is missing. *)
Lemma load_parquet_loads_before_counting_witness :
  let w := Scenario.half_written_world in
  let e := RuntimeFailure "Path does not exist" in
  let reader := parquet_reader Sample.spark in
  import_module Sample.world = (Ok Sample.globals, (import_module Sample.world).2) /\
  load_check SparkFiles.engine reader "data/processed/tracks.parquet"
    (files w !! "data/processed/tracks.parquet") = Ok tt /\
  load_check SparkFiles.engine reader "data/processed/genres.parquet"
    (files w !! "data/processed/genres.parquet") = Raise e /\
  load_parquet SparkFiles.engine Sample.globals Sample.spark w =
    (Raise e,
     add_calls [ELoad reader "data/processed/tracks.parquet";
                ELoad reader "data/processed/genres.parquet"] w) /\
  counts (calls_since w (load_parquet SparkFiles.engine Sample.globals Sample.spark w).2)
    = [] /\
  prints (calls_since w (load_parquet SparkFiles.engine Sample.globals Sample.spark w).2)
    = [].
Proof.
  intros w e reader.
  assert (Himport : import_module Sample.world
                    = (Ok Sample.globals, (import_module Sample.world).2))
    by (vm_compute; reflexivity).
  assert (Hl1 : load_check SparkFiles.engine reader "data/processed/tracks.parquet"
                  (files w !! "data/processed/tracks.parquet") = Ok tt)
    by (vm_compute; reflexivity).
  assert (Hl2 : load_check SparkFiles.engine reader "data/processed/genres.parquet"
                  (files w !! "data/processed/genres.parquet") = Raise e)
    by (vm_compute; reflexivity).
  split; [exact Himport|]. split; [exact Hl1|]. split; [exact Hl2|].
  exact (load_parquet_loads_before_counting SparkFiles.engine _ _ _ Sample.spark w e
           Himport Hl1 Hl2).
Defined.

(** Witness of X9: [convert_all], then [load_parquet], in the sample
    world. *)
Lemma load_parquet_reports_converted_counts_witness :
  let run := convert_all SparkFiles.engine Sample.globals Sample.spark Sample.world in
  reads_parquet_back SparkFiles.engine /\
  import_module Sample.world = (Ok Sample.globals, (import_module Sample.world).2) /\
  run = (Ok Sample.results, run.2) /\
  exists n1 n2 n3 frames w'',
    Sample.results !! "tracks"
      = Some (conversion_result n1 "data/processed/tracks.parquet") /\
    Sample.results !! "genres"
      = Some (conversion_result n2 "data/processed/genres.parquet") /\
    Sample.results !! "artists"
      = Some (conversion_result n3 "data/processed/artists.parquet") /\
    load_parquet SparkFiles.engine Sample.globals Sample.spark run.2
      = (Ok frames, w'') /\
    prints (calls_since run.2 w'') =
      ["Tracks:  " +:+ Text.thousands n1 +:+ " records";
       "Genres:  " +:+ Text.thousands n2 +:+ " records";
       "Artists: " +:+ Text.thousands n3 +:+ " records"] /\
    dom frames = {[ "tracks"; "genres"; "artists" ]} /\
    frames !! "tracks"
      = Some (parquet_frame Sample.spark "data/processed/tracks.parquet") /\
    frames !! "genres"
      = Some (parquet_frame Sample.spark "data/processed/genres.parquet") /\
    frames !! "artists"
      = Some (parquet_frame Sample.spark "data/processed/artists.parquet").
Proof.
  intros run.
  assert (Himport : import_module Sample.world
                    = (Ok Sample.globals, (import_module Sample.world).2))
    by (vm_compute; reflexivity).
  assert (Hrun : run = (Ok Sample.results, run.2)) by (vm_compute; reflexivity).
  split; [exact spark_files_reads_back|]. split; [exact Himport|].
  split; [exact Hrun|].
  exact (load_parquet_reports_converted_counts SparkFiles.engine _ _ _ Sample.spark
           Sample.spark _ _ _ spark_files_reads_back Himport Hrun).
Defined.

(** Witness of X11: the credentials are in the .env file alone. *)
Lemma dotenv_credentials_reach_session_witness :
  let w0 := Scenario.dotenv_world in
  environ w0 !! "AWS_ACCESS_KEY_ID" = None /\
  environ w0 !! "AWS_SECRET_ACCESS_KEY" = None /\
  dotenv w0 !! "AWS_ACCESS_KEY_ID" = Some "AKIAEXAMPLE" /\
  dotenv w0 !! "AWS_SECRET_ACCESS_KEY" = Some "secret" /\
  exists g w1 sess w2,
    import_module w0 = (Ok g, w1) /\
    (create_spark_session g w0).1 = Raise (ValueError credentials_message) /\
    create_spark_session g w1 = (Ok sess, w2) /\
    conf sess !! "spark.hadoop.fs.s3a.access.key" = Some "AKIAEXAMPLE" /\
    conf sess !! "spark.hadoop.fs.s3a.secret.key" = Some "secret".
Proof.
  intros w0. split; [reflexivity|]. split; [reflexivity|].
  split; [reflexivity|]. split; [reflexivity|].
  exact (dotenv_credentials_reach_session w0 "AKIAEXAMPLE" "secret"
           eq_refl eq_refl eq_refl eq_refl ltac:(discriminate) ltac:(discriminate)).
Defined.

(** Witness of X12: S3_BUCKET set to the empty text. *)
Lemma empty_bucket_is_not_defaulted_witness :
  environ Scenario.empty_bucket_world !! "S3_BUCKET" = Some Text.empty /\
  exists g w1,
    import_module Scenario.empty_bucket_world = (Ok g, w1) /\
    S3_BUCKET g = Text.empty /\
    S3_INPUT g !! "tracks" = Some "s3a:///raw_tracks.csv" /\
    S3_INPUT g !! "genres" = Some "s3a:///raw_genres.csv" /\
    S3_INPUT g !! "artists" = Some "s3a:///raw_artists.csv".
Proof.
  split; [reflexivity|].
  exact (empty_bucket_is_not_defaulted Scenario.empty_bucket_world eq_refl).
Defined.

(** Witness of X13: the session of the sample world, asked for twice. *)
Lemma create_spark_session_again_witness :
  let first := create_spark_session Sample.globals Sample.world in
  let sess :=
    {| conf := session_options "ap-south-1" "AKIAEXAMPLE" "secret";
       log_level := Some "WARN" |} in
  first = (Ok sess, first.2) /\
  exists w'',
    create_spark_session Sample.globals first.2 = (Ok sess, w'') /\
    session w'' = Some sess /\
    files w'' = files first.2 /\
    environ w'' = environ first.2.
Proof.
  intros first sess.
  assert (Hfirst : first = (Ok sess, first.2)) by (vm_compute; reflexivity).
  split; [exact Hfirst|].
  exact (create_spark_session_again Sample.globals Sample.world sess first.2 Hfirst).
Defined.

(** Witness of X14: the pipeline with no credentials at all. *)
Lemma pipeline_stops_without_credentials_witness :
  let w := Sample.no_credentials in
  environ w !! "AWS_ACCESS_KEY_ID" = None /\
  run_pipeline Spark.engine Sample.globals w =
    (Raise (ValueError credentials_message),
     add_calls
       (pipeline_banner ++
        [EGetenv "AWS_ACCESS_KEY_ID"; EGetenv "AWS_SECRET_ACCESS_KEY"]) w).
Proof.
  intros w.
  assert (Hnone : environ w !! "AWS_ACCESS_KEY_ID" = None) by reflexivity.
  split; [exact Hnone|].
  exact (pipeline_stops_without_credentials Spark.engine Sample.globals w
           (or_introl Hnone)).
Defined.

(** Witness of X15: the pipeline in the sample world. *)
Lemma pipeline_reads_through_its_session_witness :
  let run := run_pipeline Spark.engine Sample.globals Sample.world in
  import_module Sample.world = (Ok Sample.globals, (import_module Sample.world).2) /\
  run = (Ok tt, run.2) /\
  exists sess,
    session run.2 = Some sess /\
    log_level sess = Some "WARN" /\
    conf sess !! "spark.hadoop.fs.s3a.access.key" = Some "AKIAEXAMPLE" /\
    conf sess !! "spark.hadoop.fs.s3a.secret.key" = Some "secret" /\
    length (loads (calls_since Sample.world run.2)) = 3%nat /\
    (forall r p, In (r, p) (loads (calls_since Sample.world run.2)) ->
                 r_session r = sess).
Proof.
  intros run.
  assert (Himport : import_module Sample.world
                    = (Ok Sample.globals, (import_module Sample.world).2))
    by (vm_compute; reflexivity).
  assert (Hrun : run = (Ok tt, run.2)) by (vm_compute; reflexivity).
  split; [exact Himport|]. split; [exact Hrun|].
  exact (pipeline_reads_through_its_session Spark.engine _ _ _ _ _ Himport Hrun).
Defined.

(** Witness of X16: the genres conversion of the sample world. *)
Lemma records_line_carries_the_count_witness :
  let run := csv_to_parquet Spark.engine Sample.spark Sample.genres_in
               Sample.genres_out GENRES_SCHEMA false Sample.world in
  run = (Ok (conversion_result 2 Sample.genres_out), run.2) /\
  exists n numeral,
    conversion_result 2 Sample.genres_out !! "count" = Some (VInt (Z.of_nat n)) /\
    List.filter (Text.starts_with "Records read: ")
      (prints (calls_since Sample.world run.2))
      = ["Records read: " +:+ numeral] /\
    strip_commas numeral = pretty n /\
    (forall m, strip_commas numeral = pretty m -> m = n).
Proof.
  intros run.
  assert (Hrun : run = (Ok (conversion_result 2 Sample.genres_out), run.2))
    by (vm_compute; reflexivity).
  split; [exact Hrun|].
  exact (records_line_carries_the_count Spark.engine Sample.spark Sample.genres_in
           Sample.genres_out GENRES_SCHEMA false Sample.world _ _ Hrun).
Defined.
